(** * strava-stats: the running dashboard of [app.py]

    A shallow embedding of the fetch / transform / aggregate pipeline of
    [app.py] and the properties its specification states about it.

    Conventions of the embedding.
    - A Python [float] is an exact rational ([Q]): the numbers are finite
      and binary rounding error is outside the model.  [round(x, 2)] is
      the nearest multiple of 1/100 of the exact value, ties to even.
      Numeric equality is [==] on [Q].
    - A Python computation that can raise is a value of [outcome]; a
      division raises [ZeroDivisionError] on a zero divisor.
    - The exceptions of [exn] are instances of Python's [Exception] class.
    - An activity's [type] is the string that [str(act.type)] is.
    - [stravalib]'s client, [datetime.strftime] and [pandas.to_datetime] are
      external: they are variables of the section [App].  The caching
      decorator of [get_strava_activities] is outside the model, and so are
      the framework calls that draw the page: the page is modelled by what
      it shows ([Page]), and a run of the layout that raises by the
      exception alone. *)

From Stdlib Require Import ZArith QArith Qround Qabs List String Ascii Bool.
From Stdlib Require Import Lia Lqa Permutation Sorted DecimalString.
Import ListNotations.

Set Implicit Arguments.

(* ================================================================== *)
(** ** Python values and builtins *)

Module Py.

Local Open Scope Q_scope.

Inductive exn : Type :=
| ZeroDivisionError
| TypeError (msg : string)
| ValueError (msg : string)
| KeyError (key : string)
| ClientError (msg : string).

Inductive outcome (A : Type) : Type :=
| Ok (a : A)
| Raise (e : exn).
Arguments Ok {A} a.
Arguments Raise {A} e.

Definition bind {A B} (m : outcome A) (k : A -> outcome B) : outcome B :=
  match m with
  | Ok a => k a
  | Raise e => Raise e
  end.

(** [try: body  except Exception as e: handler e] *)
Definition try_except {A} (body : outcome A) (handler : exn -> A) : A :=
  match body with
  | Ok a => a
  | Raise e => handler e
  end.

(** [str(e)] of an exception. *)
Definition str_exn (e : exn) : string :=
  match e with
  | ZeroDivisionError => "float division by zero"
  | TypeError msg => msg
  | ValueError msg => msg
  | KeyError key => "'" ++ key ++ "'"
  | ClientError msg => msg
  end.

(** [str(s)] of a string. *)
Definition str (s : string) : string := s.

(** Truth value of a number: [bool(x)]. *)
Definition truthy (x : Q) : bool := negb (Qeq_bool x 0).
Definition truthy_int (n : Z) : bool := negb (n =? 0)%Z.

(** [float(n)] of an integer. *)
Definition float (n : Z) : Q := inject_Z n.

(** [x > y] and [x >= y]. *)
Definition gt (x y : Q) : bool := negb (Qle_bool x y).
Definition ge (x y : Q) : bool := Qle_bool y x.

(** [x / y]. *)
Definition truediv (x y : Q) : outcome Q :=
  if Qeq_bool y 0 then Raise ZeroDivisionError else Ok (x / y).

(** [x // y] on floats: the floor of the quotient. *)
Definition floordiv (x y : Q) : outcome Q :=
  if Qeq_bool y 0 then Raise ZeroDivisionError
  else Ok (inject_Z (Qfloor (x / y))).

(** [x % y] on floats: the remainder of the floor division. *)
Definition mod_ (x y : Q) : outcome Q :=
  if Qeq_bool y 0 then Raise ZeroDivisionError
  else Ok (x - y * inject_Z (Qfloor (x / y))).

(** [int(x)]: truncation towards zero. *)
Definition int (x : Q) : Z :=
  if Qle_bool 0 x then Qfloor x else Qceiling x.

(** Nearest integer, ties to the even one. *)
Definition round_half_even (x : Q) : Z :=
  let f := Qfloor x in
  match Qcompare (x - inject_Z f) (1 # 2) with
  | Lt => f
  | Gt => (f + 1)%Z
  | Eq => if Z.even f then f else (f + 1)%Z
  end.

(** [round(x, 2)]. *)
Definition round2 (x : Q) : Q := round_half_even (x * 100) # 100.

(** [f"{n:02d}"]: decimal digits, zero-padded to width two. *)
Definition format_02d (n : Z) : string :=
  let s := NilZero.string_of_int (Z.to_int n) in
  if (String.length s <? 2)%nat then ("0" ++ s)%string else s.

End Py.

Import Py.

Declare Scope py_scope.
Delimit Scope py_scope with py.
Notation "x <- m ;; k" := (Py.bind m (fun x => k))
  (at level 61, m at next level, right associativity) : py_scope.
Open Scope py_scope.

(** Monadic iteration: [for a in l: s = body s a], stopping at the first
    exception. *)
Fixpoint for_each {A S} (l : list A) (body : S -> A -> outcome S) (s : S)
  : outcome S :=
  match l with
  | [] => Ok s
  | a :: l' => s' <- body s a ;; for_each l' body s'
  end.

(** [[f x for x in l]] for an [f] that can raise. *)
Fixpoint map_outcome {A B} (f : A -> outcome B) (l : list A)
  : outcome (list B) :=
  match l with
  | [] => Ok []
  | a :: l' => b <- f a ;; bs <- map_outcome f l' ;; Ok (b :: bs)
  end.

(* ================================================================== *)
(** ** The pandas operations the script uses

    A frame is its rows in order, each with its index label.  A series is
    a frame of numbers. *)

Module Pd.

Local Open Scope Q_scope.

Definition Frame (R : Type) : Type := list (nat * R).
Definition Series : Type := Frame Q.

Definition labels {R} (df : Frame R) : list nat := map fst df.
Definition rows {R} (df : Frame R) : list R := map snd df.

(** [pd.DataFrame(records)]: a default index [0 .. n-1];
    [pd.DataFrame()] is [DataFrame []]. *)
Definition DataFrame {R} (records : list R) : Frame R :=
  combine (seq 0 (List.length records)) records.

(** [df.empty] *)
Definition empty {R} (df : Frame R) : bool :=
  match df with
  | [] => true
  | _ :: _ => false
  end.

(** [df[col] = f(df[col])] and the like: a row-wise update that keeps
    the index. *)
Definition assign {R R'} (f : R -> R') (df : Frame R) : Frame R' :=
  map (fun ir => (fst ir, f (snd ir))) df.

(** [df.apply] with a function that can raise. *)
Definition apply {R R'} (f : R -> outcome R') (df : Frame R)
  : outcome (Frame R') :=
  map_outcome (fun ir => r' <- f (snd ir) ;; Ok (fst ir, r')) df.

(** [df[col]] for a numeric column. *)
Definition column {R} (col : R -> Q) (df : Frame R) : Series :=
  assign col df.

(** [df[mask]]: the rows that satisfy [p], with their labels. *)
Definition mask {R} (p : R -> bool) (df : Frame R) : Frame R :=
  filter (fun ir => p (snd ir)) df.

(** [df.sort_values(key, ascending=False)].  The order among equal keys,
    which pandas leaves to its sorting algorithm, is here the original
    one. *)
Fixpoint insert_desc {R} (key : R -> Z) (x : nat * R) (l : Frame R)
  : Frame R :=
  match l with
  | [] => [x]
  | y :: l' =>
      if (key (snd y) <=? key (snd x))%Z then x :: y :: l'
      else y :: insert_desc key x l'
  end.

Definition sort_values_desc {R} (key : R -> Z) (df : Frame R) : Frame R :=
  fold_right (insert_desc key) [] df.

(** [df.reset_index(drop=True)] *)
Definition reset_index {R} (df : Frame R) : Frame R :=
  combine (seq 0 (List.length df)) (rows df).

(** [s.sum()] *)
Definition sum (s : Series) : Q := fold_left Qplus (rows s) 0.

(** [s.mean()]; [None] is NaN, the mean of an empty series. *)
Definition mean (s : Series) : option Q :=
  match s with
  | [] => None
  | _ :: _ => Some (sum s / inject_Z (Z.of_nat (List.length s)))
  end.

(** The first entry that no later entry beats. *)
Fixpoint arg_best (better : Q -> Q -> bool) (best : nat * Q) (s : Series)
  : nat * Q :=
  match s with
  | [] => best
  | x :: s' =>
      arg_best better (if better (snd x) (snd best) then x else best) s'
  end.

(** [s.idxmax()] and [s.idxmin()]: the label of the first extremum. *)
Definition idxmax (s : Series) : outcome nat :=
  match s with
  | [] => Raise (ValueError "attempt to get argmax of an empty sequence")
  | x :: s' => Ok (fst (arg_best Py.gt x s'))
  end.

Definition idxmin (s : Series) : outcome nat :=
  match s with
  | [] => Raise (ValueError "attempt to get argmin of an empty sequence")
  | x :: s' => Ok (fst (arg_best (fun a b => Py.gt b a) x s'))
  end.

(** [df.loc[label]] on a frame whose labels are distinct. *)
Fixpoint loc {R} (df : Frame R) (label : nat) : outcome R :=
  match df with
  | [] => Raise (KeyError (NilZero.string_of_uint (Nat.to_uint label)))
  | (i, r) :: df' => if (i =? label)%nat then Ok r else loc df' label
  end.

End Pd.

(* ================================================================== *)
(** ** The activity objects of the Strava client *)

Module Strava.

(** A [datetime.datetime]. *)
Record datetime : Type := {
  year : Z; month : Z; day : Z;
  hour : Z; minute : Z; second : Z; microsecond : Z
}.

(** The attributes of an activity.  [None] is Python's [None];
    [moving_time] is a [Duration], a number of whole seconds;
    [other_attributes] stands for the attributes the script never reads. *)
Record Activity : Type := {
  id : Z;
  name : string;
  type : string;
  distance : option Q;
  moving_time : option Z;
  total_elevation_gain : option Q;
  start_date_local : datetime;
  other_attributes : list (string * string)
}.

End Strava.

Import Strava.

(** A pandas [Timestamp], as the integer pandas stores. *)
Definition Timestamp : Type := Z.

(** Truth value of an optional attribute: [None] is false. *)
Definition truthy_attr {A} (t : A -> bool) (o : option A) : bool :=
  match o with
  | Some x => t x
  | None => false
  end.

(** [float(o)] of an optional attribute; [float(None)] raises. *)
Definition float_attr {A} (f : A -> Q) (o : option A) : outcome Q :=
  match o with
  | Some x => Ok (f x)
  | None =>
      Raise (TypeError
               "float() argument must be a string or a real number, not 'NoneType'")
  end.

(** [d[key]] on a dictionary with string keys. *)
Fixpoint getitem {V} (d : list (string * V)) (key : string) : outcome V :=
  match d with
  | [] => Raise (KeyError key)
  | (k, v) :: d' => if String.eqb k key then Ok v else getitem d' key
  end.

(* ================================================================== *)
(** ** A concrete date formatter, date parser and client

    One instance of the external functions, used to run the script on
    concrete activities. *)

Module Sample.

Open Scope string_scope.

Fixpoint zeros (n : nat) : string :=
  match n with
  | O => EmptyString
  | S n' => "0" ++ zeros n'
  end.

(** The decimal digits of [n], zero-padded on the left to [width]. *)
Definition zfill (width : nat) (n : Z) : string :=
  let s := NilZero.string_of_int (Z.to_int n) in
  zeros (width - String.length s) ++ s.

(** [d.strftime(fmt)] for the one format the script uses,
    ["%Y-%m-%d %H:%M:%S"]. *)
Definition strftime (d : datetime) (fmt : string) : string :=
  zfill 4 (year d) ++ "-" ++ zfill 2 (month d) ++ "-" ++ zfill 2 (day d)
  ++ " " ++
  zfill 2 (hour d) ++ ":" ++ zfill 2 (minute d) ++ ":" ++ zfill 2 (second d).

Definition digit_of_ascii (c : ascii) : option Z :=
  let n := Z.of_nat (nat_of_ascii c) in
  if ((48 <=? n) && (n <=? 57))%Z then Some (n - 48)%Z else None.

Fixpoint read_digits (acc : Z) (s : string) : Z :=
  match s with
  | EmptyString => acc
  | String c s' =>
      match digit_of_ascii c with
      | Some k => read_digits (10 * acc + k)%Z s'
      | None => read_digits acc s'
      end
  end.

(** A parser of formatted dates into an integer that grows with the
    date: the digits [YYYYMMDDHHMMSS] read as one number. *)
Definition to_datetime (s : string) : Timestamp := read_digits 0 s.

(** A client whose server holds [feed] and that serves at most [limit]
    activities of it. *)
Definition refresh_access_token (client_id client_secret refresh_token : string)
  : outcome (list (string * string)) :=
  Ok [("access_token", "token"); ("refresh_token", refresh_token)].

Definition get_activities (feed : list Activity)
           (access_token : string) (limit : option nat)
  : outcome (list Activity) :=
  match limit with
  | Some n => Ok (firstn n feed)
  | None => Ok feed
  end.

(** A client whose token refresh fails. *)
Definition refresh_unauthorized (client_id client_secret refresh_token : string)
  : outcome (list (string * string)) :=
  Raise (ClientError "401 Unauthorized").

(** A client whose activity request fails. *)
Definition get_activities_timeout
           (access_token : string) (limit : option nat)
  : outcome (list Activity) :=
  Raise (ClientError "Read timed out").

(** Some activities. *)
Definition morning (y m d : Z) : datetime :=
  {| year := y; month := m; day := d;
     hour := 7; minute := 30; second := 0; microsecond := 0 |}.

Definition long_run : Activity :=
  {| id := 1; name := "Long run"; type := "Run";
     distance := Some (5000 # 1); moving_time := Some 1500%Z;
     total_elevation_gain := Some (35 # 1);
     start_date_local := morning 2024 5 1; other_attributes := [] |}.

Definition ride : Activity :=
  {| id := 2; name := "Ride"; type := "Ride";
     distance := Some (20000 # 1); moving_time := Some 3600%Z;
     total_elevation_gain := Some (200 # 1);
     start_date_local := morning 2024 5 2; other_attributes := [] |}.

Definition short_run : Activity :=
  {| id := 3; name := "Hill sprint"; type := "Run";
     distance := Some (900 # 1); moving_time := Some 180%Z;
     total_elevation_gain := Some (100 # 1);
     start_date_local := morning 2024 5 3; other_attributes := [] |}.

Definition manual_run : Activity :=
  {| id := 4; name := "Manual entry"; type := "Run";
     distance := Some (3000 # 1); moving_time := None;
     total_elevation_gain := None;
     start_date_local := morning 2024 5 4; other_attributes := [] |}.


Definition feed : list Activity :=
  [long_run; ride; short_run; manual_run].

(** A server with more activities than the script asks for. *)
Definition long_feed : list Activity := repeat ride 150.

End Sample.

(* ================================================================== *)
(** ** The script *)

(** One [dict] appended to [processed_data]; [F] is the type of the value
    under ["Fecha"], a string at first and a [Timestamp] after
    [pd.to_datetime]. *)
Record RunRecord (F : Type) : Type := {
  ID : Z;
  Nombre : string;
  Tipo : string;
  Distancia_km : Q;
  Tiempo_min : Q;
  Desnivel_m : Q;
  Ritmo_seg_km : Q;
  Fecha : F
}.

(** A row of the returned frame: the record and the display column
    ['Ritmo (min/km)']. *)
Record Row : Type := {
  run :> RunRecord Timestamp;
  Ritmo_min_km : string
}.

(** [df['Fecha'] = f(df['Fecha'])] on one record. *)
Definition set_Fecha {F G} (f : F -> G) (r : RunRecord F) : RunRecord G :=
  {| ID := ID r; Nombre := Nombre r; Tipo := Tipo r;
     Distancia_km := Distancia_km r; Tiempo_min := Tiempo_min r;
     Desnivel_m := Desnivel_m r; Ritmo_seg_km := Ritmo_seg_km r;
     Fecha := f (Fecha r) |}.

(** A call into the dashboard framework. *)
Inductive st_call : Type :=
| St_error (msg : string).

(** The three selected rows of the best-marks panel. *)
Record BestMarks : Type := {
  longest_run : Row;
  fastest_run : Row;
  most_elevation_run : Row
}.

(** A float that may be NaN: [None] is NaN.  [int(x)] raises on NaN;
    [x // y] and [x % y] of NaN are NaN. *)
Definition int_nan (x : option Q) : outcome Z :=
  match x with
  | Some q => Ok (Py.int q)
  | None => Raise (ValueError "cannot convert float NaN to integer")
  end.

Definition floordiv_nan (x : option Q) (y : Q) : outcome (option Q) :=
  match x with
  | Some q => r <- floordiv q y ;; Ok (Some r)
  | None => if Qeq_bool y 0 then Raise ZeroDivisionError else Ok None
  end.

Definition mod_nan (x : option Q) (y : Q) : outcome (option Q) :=
  match x with
  | Some q => r <- mod_ q y ;; Ok (Some r)
  | None => if Qeq_bool y 0 then Raise ZeroDivisionError else Ok None
  end.

(** [f"{n}"] of an integer. *)
Definition format_d (n : Z) : string := NilZero.string_of_int (Z.to_int n).

(** [df.set_index("Fecha")[cols].sort_index()]: the chosen values of every
    row under its date, oldest first.  The order among equal dates, which
    pandas leaves to its sorting algorithm, is here the original one. *)
Fixpoint insert_asc {V} (x : Timestamp * V) (l : list (Timestamp * V))
  : list (Timestamp * V) :=
  match l with
  | [] => [x]
  | y :: l' =>
      if (fst x <=? fst y)%Z then x :: y :: l' else y :: insert_asc x l'
  end.

Definition sort_index {V} (l : list (Timestamp * V)) : list (Timestamp * V) :=
  fold_right insert_asc [] l.

Definition set_index_Fecha {V} (cols : Row -> V) (df : Pd.Frame Row)
  : list (Timestamp * V) :=
  map (fun r : Row => (Fecha r, cols r)) (Pd.rows df).

(** The analysis page: the number of runs of the success message, the four
    metrics (for the two that are formatted floats, the number behind the
    text), the data of the two charts and the best marks. *)
Record Analysis : Type := {
  carreras : nat;
  Distancia_Total : Q;
  Tiempo_Total : string;
  Desnivel_Total : Q;
  Ritmo_Promedio : string;
  chart_data : list (Timestamp * (Q * Q));
  pace_data : list (Timestamp * Q);
  Mejores_Marcas : option BestMarks
}.

(** What the page shows: the warning that nothing was loaded, the note
    that there is no run, or the analysis. *)
Inductive Page : Type :=
| St_warning
| St_info
| St_analysis (a : Analysis).

Section App.

Set Default Proof Using "Type".

(** The secrets. *)
Variables CLIENT_ID CLIENT_SECRET REFRESH_TOKEN : string.

(** [Client.refresh_access_token] and [list(Client.get_activities(limit))]
    with the access token the client holds. *)
Variable refresh_access_token :
  string -> string -> string -> outcome (list (string * string)).
Variable get_activities :
  string -> option nat -> outcome (list Activity).

(** [datetime.strftime(fmt)] and [pd.to_datetime]. *)
Variable strftime : datetime -> string -> string.
Variable to_datetime : string -> Timestamp.

Local Open Scope Q_scope.

(** The body of the [try] block of [get_strava_activities]. *)
Definition api_interaction : outcome (list Activity) :=
  token_info <- refresh_access_token CLIENT_ID CLIENT_SECRET REFRESH_TOKEN ;;
  access_token <- getitem token_info "access_token" ;;
  get_activities access_token (Some 100%nat).

(** [get_strava_activities]: the returned list and the framework calls
    made on the way. *)
Definition get_strava_activities : list Activity * list st_call :=
  try_except
    (activities <- api_interaction ;; Ok (activities, []))
    (fun e =>
       ([], [St_error ("Error al conectar con Strava: " ++ str_exn e)%string])).

(** The body of the loop of [process_activities] for an activity of type
    ['Run']: the dictionary that is appended. *)
Definition run_record (act : Activity) : outcome (RunRecord string) :=
  let activity_type_str := Py.str (type act) in
  distancia_km <-
    (if truthy_attr truthy (distance act)
     then d <- float_attr (fun x => x) (distance act) ;;
          km <- truediv d 1000 ;;
          Ok (round2 km)
     else Ok 0) ;;
  moving_time_seconds <-
    (if truthy_attr truthy_int (moving_time act)
     then float_attr Py.float (moving_time act)
     else Ok 0) ;;
  minutes <- truediv moving_time_seconds 60 ;;
  let tiempo_min := round2 minutes in
  ritmo_total_segundos <-
    (if gt moving_time_seconds 0 && gt distancia_km 0
     then truediv moving_time_seconds distancia_km
     else Ok 0) ;;
  desnivel <-
    (if truthy_attr truthy (total_elevation_gain act)
     then float_attr (fun x => x) (total_elevation_gain act)
     else Ok 0) ;;
  Ok {| ID := id act;
        Nombre := name act;
        Tipo := activity_type_str;
        Distancia_km := distancia_km;
        Tiempo_min := tiempo_min;
        Desnivel_m := desnivel;
        Ritmo_seg_km := ritmo_total_segundos;
        Fecha := strftime (start_date_local act) "%Y-%m-%d %H:%M:%S" |}.

(** The display of a pace: [MM:SS], or ["N/A"] for the sentinel. *)
Definition ritmo_min_km (s : Q) : outcome string :=
  if gt s 0
  then m <- floordiv s 60 ;;
       r <- mod_ s 60 ;;
       Ok (format_02d (int m) ++ ":" ++ format_02d (int r))%string
  else Ok "N/A"%string.

Definition process_activities (activities : list Activity)
  : outcome (Pd.Frame Row) :=
  processed_data <-
    for_each activities
      (fun processed_data act =>
         if negb (String.eqb (type act) "Run") then Ok processed_data
         else r <- run_record act ;; Ok (processed_data ++ [r]))
      [] ;;
  match processed_data with
  | [] => Ok (Pd.DataFrame [])
  | _ :: _ =>
      let df := Pd.DataFrame processed_data in
      let df := Pd.assign (set_Fecha to_datetime) df in
      let df := Pd.reset_index (Pd.sort_values_desc (@Fecha Timestamp) df) in
      Pd.apply
        (fun r => s <- ritmo_min_km (Ritmo_seg_km r) ;;
                  Ok {| run := r; Ritmo_min_km := s |})
        df
  end.

(** The four aggregates of the summary. *)
Definition total_km (df_runs : Pd.Frame Row) : Q :=
  Pd.sum (Pd.column (fun r : Row => Distancia_km r) df_runs).
Definition total_time_min (df_runs : Pd.Frame Row) : Q :=
  Pd.sum (Pd.column (fun r : Row => Tiempo_min r) df_runs).
Definition total_elevation (df_runs : Pd.Frame Row) : Q :=
  Pd.sum (Pd.column (fun r : Row => Desnivel_m r) df_runs).
Definition avg_pace_seconds (df_runs : Pd.Frame Row) : option Q :=
  Pd.mean
    (Pd.column (fun r : Row => Ritmo_seg_km r)
       (Pd.mask (fun r : Row => gt (Ritmo_seg_km r) 0) df_runs)).

(** The rows the best-marks panel looks at. *)
Definition df_significant (df_runs : Pd.Frame Row) : Pd.Frame Row :=
  Pd.mask (fun r : Row => ge (Distancia_km r) 1) df_runs.

(** The best-marks panel: [Ok None] is the branch that writes that there
    is no run to analyse. *)
Definition best_marks (df_runs : Pd.Frame Row) : outcome (option BestMarks) :=
  let df_significant := df_significant df_runs in
  if negb (Pd.empty df_significant) then
    i <- Pd.idxmax (Pd.column (fun r : Row => Distancia_km r) df_significant) ;;
    longest_run <- Pd.loc df_significant i ;;
    j <- Pd.idxmin
           (Pd.column (fun r : Row => Ritmo_seg_km r)
              (Pd.mask (fun r : Row => gt (Ritmo_seg_km r) 0) df_significant)) ;;
    fastest_run <- Pd.loc df_significant j ;;
    k <- Pd.idxmax (Pd.column (fun r : Row => Desnivel_m r) df_significant) ;;
    most_elevation_run <- Pd.loc df_significant k ;;
    Ok (Some {| longest_run := longest_run;
                fastest_run := fastest_run;
                most_elevation_run := most_elevation_run |})
  else Ok None.

(** The total time as hours and minutes, and the average pace as minutes
    and seconds. *)
Definition horas_minutos (total_time_min : Q) : outcome (Z * Z) :=
  h <- floordiv total_time_min 60 ;;
  let horas := int h in
  m <- mod_ total_time_min 60 ;;
  let minutos := int m in
  Ok (horas, minutos).

Definition avg_pace_min_sec (avg_pace_seconds : option Q) : outcome (Z * Z) :=
  m <- floordiv_nan avg_pace_seconds 60 ;;
  avg_pace_min <- int_nan m ;;
  s <- mod_nan avg_pace_seconds 60 ;;
  avg_pace_sec <- int_nan s ;;
  Ok (avg_pace_min, avg_pace_sec).

(** The layout of the page, from the fetched activities on. *)
Definition layout (activities : list Activity) : outcome Page :=
  match activities with
  | [] => Ok St_warning
  | _ :: _ =>
      df_runs <- process_activities activities ;;
      if Pd.empty df_runs then Ok St_info
      else
        let total_km := total_km df_runs in
        let total_time_min := total_time_min df_runs in
        let total_elevation := total_elevation df_runs in
        let avg_pace_seconds := avg_pace_seconds df_runs in
        hm <- horas_minutos total_time_min ;;
        let '(horas, minutos) := hm in
        ms <- avg_pace_min_sec avg_pace_seconds ;;
        let '(avg_pace_min, avg_pace_sec) := ms in
        let chart_data :=
          sort_index
            (set_index_Fecha
               (fun r : Row => (Distancia_km r, Desnivel_m r)) df_runs) in
        let pace_data :=
          sort_index
            (set_index_Fecha (fun r : Row => Ritmo_seg_km r) df_runs) in
        marks <- best_marks df_runs ;;
        Ok (St_analysis
              {| carreras := List.length df_runs;
                 Distancia_Total := total_km;
                 Tiempo_Total :=
                   (format_d horas ++ "h " ++ format_d minutos ++ "min")%string;
                 Desnivel_Total := total_elevation;
                 Ritmo_Promedio :=
                   (format_d avg_pace_min ++ ":" ++ format_02d avg_pace_sec
                    ++ " min/km")%string;
                 chart_data := chart_data;
                 pace_data := pace_data;
                 Mejores_Marcas := marks |})
  end.

(** The script: fetch, then lay the page out. *)
Definition main : outcome Page * list st_call :=
  let '(activities, calls) := get_strava_activities in
  (layout activities, calls).

(* ================================================================ *)
(** ** The derived fields, in the words of the specification *)

(** Distance in km: the raw distance divided by 1000 and rounded to two
    decimals; 0 if the distance is [None] or zero. *)
Definition spec_distancia_km (act : Activity) : Q :=
  match distance act with
  | Some d => if Qeq_bool d 0 then 0 else round2 (d / 1000)
  | None => 0
  end.

(** The unrounded moving time in seconds; 0 if it is [None] or zero. *)
Definition spec_moving_time_seconds (act : Activity) : Q :=
  match moving_time act with
  | Some t => if (t =? 0)%Z then 0 else inject_Z t
  | None => 0
  end.

(** Time in minutes: the unrounded seconds divided by 60 and rounded to
    two decimals. *)
Definition spec_tiempo_min (act : Activity) : Q :=
  round2 (spec_moving_time_seconds act / 60).

(** Elevation gain: the raw value; 0 if it is [None] or zero. *)
Definition spec_desnivel_m (act : Activity) : Q :=
  match total_elevation_gain act with
  | Some e => if Qeq_bool e 0 then 0 else e
  | None => 0
  end.

(** Pace in seconds per km: the unrounded seconds divided by the rounded
    distance when both are positive, else 0. *)
Definition spec_ritmo_seg_km (act : Activity) : Q :=
  if Qlt_le_dec 0 (spec_moving_time_seconds act) then
    if Qlt_le_dec 0 (spec_distancia_km act)
    then spec_moving_time_seconds act / spec_distancia_km act
    else 0
  else 0.

(** The activity is of type ['Run']. *)
Definition is_run (act : Activity) : bool := String.eqb (type act) "Run".

(** Row [row] of the frame is the one computed from activity [act]. *)
Definition shows (act : Activity) (row : Row) : Prop :=
  exists r : RunRecord string,
    run_record act = Ok r /\
    run row = set_Fecha to_datetime r /\
    ritmo_min_km (Ritmo_seg_km r) = Ok (Ritmo_min_km row).

(** The dictionary of an activity, field by field. *)
Definition spec_record (act : Activity) : RunRecord string :=
  {| ID := id act;
     Nombre := name act;
     Tipo := type act;
     Distancia_km := spec_distancia_km act;
     Tiempo_min := spec_tiempo_min act;
     Desnivel_m := spec_desnivel_m act;
     Ritmo_seg_km := spec_ritmo_seg_km act;
     Fecha := strftime (start_date_local act) "%Y-%m-%d %H:%M:%S" |}.

(** Newest first. *)
Definition newest_first (r1 r2 : Row) : Prop := (Fecha r2 <= Fecha r1)%Z.



(** The sum of a list of numbers. *)
Fixpoint sum_of (l : list Q) : Q :=
  match l with
  | [] => 0
  | x :: l' => x + sum_of l'
  end.

(** The strictly positive paces of a frame, in order. *)
Definition positive_paces (df : Pd.Frame Row) : list Q :=
  map (fun r : Row => Ritmo_seg_km r)
      (filter (fun r : Row => gt (Ritmo_seg_km r) 0) (Pd.rows df)).

(** The rows with a distance of at least 1 km, in order. *)
Definition significant_rows (df : Pd.Frame Row) : list Row :=
  filter (fun r : Row => ge (Distancia_km r) 1) (Pd.rows df).

(** The three best marks are extrema among [candidates]: the longest run
    has the largest distance, the fastest run the smallest strictly
    positive pace, the run with most elevation the largest elevation. *)
Definition best_among (candidates : list Row) (bm : BestMarks) : Prop :=
  (In (longest_run bm) candidates /\
   forall row, In row candidates ->
               Distancia_km row <= Distancia_km (longest_run bm)) /\
  (In (fastest_run bm) candidates /\
   0 < Ritmo_seg_km (fastest_run bm) /\
   forall row, In row candidates -> 0 < Ritmo_seg_km row ->
               Ritmo_seg_km (fastest_run bm) <= Ritmo_seg_km row) /\
  (In (most_elevation_run bm) candidates /\
   forall row, In row candidates ->
               Desnivel_m row <= Desnivel_m (most_elevation_run bm)).




(** The runs among the activities, in the order of the feed. *)
Definition runs_of (activities : list Activity) : list Activity :=
  filter is_run activities.

(** The character is a decimal digit. *)
Definition is_digit (c : ascii) : bool :=
  let n := nat_of_ascii c in ((48 <=? n) && (n <=? 57))%nat.

(* ================================================================ *)
(** ** Facts about the Python builtins *)

Lemma gt_true_iff (x y : Q) : gt x y = true <-> y < x.
Proof.
  unfold gt. rewrite negb_true_iff.
  split; intro H.
  - apply Qnot_le_lt. intro Hle.
    apply Qle_bool_iff in Hle. congruence.
  - destruct (Qle_bool x y) eqn:E; [|reflexivity].
    apply Qle_bool_iff in E. exfalso. apply (Qlt_not_le _ _ H E).
Qed.

Lemma gt_false_iff (x y : Q) : gt x y = false <-> x <= y.
Proof.
  unfold gt. rewrite negb_false_iff. apply Qle_bool_iff.
Qed.

Lemma ge_true_iff (x y : Q) : ge x y = true <-> y <= x.
Proof. unfold ge. apply Qle_bool_iff. Qed.

Lemma truthy_false_iff (x : Q) : truthy x = false <-> x == 0.
Proof.
  unfold truthy. rewrite negb_false_iff. apply Qeq_bool_iff.
Qed.

Lemma truthy_true_iff (x : Q) : truthy x = true <-> ~ x == 0.
Proof.
  unfold truthy. rewrite negb_true_iff. split; intro H.
  - intro E. apply Qeq_bool_iff in E. congruence.
  - destruct (Qeq_bool x 0) eqn:E; [|reflexivity].
    apply Qeq_bool_iff in E. contradiction.
Qed.

Lemma truediv_ok (x y : Q) : ~ y == 0 -> truediv x y = Ok (x / y).
Proof.
  intro H. unfold truediv.
  destruct (Qeq_bool y 0) eqn:E; [|reflexivity].
  apply Qeq_bool_iff in E. contradiction.
Qed.

Lemma floordiv_ok (x y : Q) :
  ~ y == 0 -> floordiv x y = Ok (inject_Z (Qfloor (x / y))).
Proof.
  intro H. unfold floordiv.
  destruct (Qeq_bool y 0) eqn:E; [|reflexivity].
  apply Qeq_bool_iff in E. contradiction.
Qed.

Lemma mod_ok (x y : Q) :
  ~ y == 0 -> mod_ x y = Ok (x - y * inject_Z (Qfloor (x / y))).
Proof.
  intro H. unfold mod_.
  destruct (Qeq_bool y 0) eqn:E; [|reflexivity].
  apply Qeq_bool_iff in E. contradiction.
Qed.


(** The rounded value is within one half of its argument. *)
Lemma round_half_even_near (x : Q) :
  Qabs (inject_Z (round_half_even x) - x) <= 1 # 2.
Proof.
  pose proof (Qfloor_le x) as Hlo.
  pose proof (Qlt_floor x) as Hhi.
  rewrite inject_Z_plus in Hhi. change (inject_Z 1) with 1 in Hhi.
  unfold round_half_even.
  destruct (Qcompare_spec (x - inject_Z (Qfloor x)) (1 # 2)) as [E|E|E].
  - destruct (Z.even (Qfloor x)).
    + apply Qabs_Qle_condition; split; lra.
    + rewrite inject_Z_plus. change (inject_Z 1) with 1.
      apply Qabs_Qle_condition; split; lra.
  - apply Qabs_Qle_condition; split; lra.
  - rewrite inject_Z_plus. change (inject_Z 1) with 1.
    apply Qabs_Qle_condition; split; lra.
Qed.


(** A value rounded to a positive number was positive. *)
Lemma round_half_even_pos_inv (x : Q) :
  (0 < round_half_even x)%Z -> 0 < x.
Proof.
  intro H.
  pose proof (round_half_even_near x) as Hn.
  assert (Hz : 1 <= inject_Z (round_half_even x)).
  { change 1 with (inject_Z 1). rewrite <- Zle_Qle. lia. }
  apply Qabs_Qle_condition in Hn. lra.
Qed.


Lemma Qmake_100_pos_iff (n : Z) : 0 < n # 100 <-> (0 < n)%Z.
Proof. unfold Qlt. simpl. lia. Qed.

Lemma Qmake_100_zero_iff (n : Z) : n # 100 == 0 <-> n = 0%Z.
Proof. unfold Qeq. simpl. lia. Qed.


Lemma round2_pos_inv (x : Q) : 0 < round2 x -> 0 < x.
Proof.
  unfold round2. rewrite Qmake_100_pos_iff. intro H.
  apply round_half_even_pos_inv in H. lra.
Qed.


(* ================================================================ *)
(** ** The loop body *)

(** The loop body never raises, and its fields are the specified ones. *)
Lemma run_record_ok (act : Activity) :
  run_record act = Ok (spec_record act).
Proof.
  unfold spec_record, run_record, spec_tiempo_min, spec_ritmo_seg_km.
  assert (Hd : (if truthy_attr truthy (distance act)
                then d <- float_attr (fun x => x) (distance act) ;;
                     km <- truediv d 1000 ;; Ok (round2 km)
                else Ok 0) = Ok (spec_distancia_km act)).
  { unfold spec_distancia_km, truthy_attr, truthy.
    destruct (distance act) as [d|]; [|reflexivity].
    destruct (Qeq_bool d 0); reflexivity. }
  rewrite Hd. clear Hd.
  assert (Ht : (if truthy_attr truthy_int (moving_time act)
                then float_attr Py.float (moving_time act)
                else Ok 0) = Ok (spec_moving_time_seconds act)).
  { unfold spec_moving_time_seconds, truthy_attr, truthy_int.
    destruct (moving_time act) as [t|]; [|reflexivity].
    destruct (t =? 0)%Z; reflexivity. }
  rewrite Ht. clear Ht.
  assert (He : (if truthy_attr truthy (total_elevation_gain act)
                then float_attr (fun x => x) (total_elevation_gain act)
                else Ok 0) = Ok (spec_desnivel_m act)).
  { unfold spec_desnivel_m, truthy_attr, truthy.
    destruct (total_elevation_gain act) as [e|]; [|reflexivity].
    destruct (Qeq_bool e 0); reflexivity. }
  rewrite He. clear He.
  cbn [bind].
  change (truediv (spec_moving_time_seconds act) 60)
    with (Ok (A:=Q) (spec_moving_time_seconds act / 60)).
  cbn [bind].
  destruct (Qlt_le_dec 0 (spec_moving_time_seconds act)) as [Hs|Hs].
  - apply gt_true_iff in Hs. rewrite Hs. cbn [andb].
    destruct (Qlt_le_dec 0 (spec_distancia_km act)) as [Hk|Hk].
    + pose proof Hk as Hk'. apply gt_true_iff in Hk'. rewrite Hk'.
      rewrite truediv_ok; [reflexivity|]. intro E. rewrite E in Hk.
      apply (Qlt_irrefl 0 Hk).
    + apply gt_false_iff in Hk. rewrite Hk. reflexivity.
  - apply gt_false_iff in Hs. rewrite Hs. reflexivity.
Qed.

(** The display of a pace never raises; the sentinel gives ["N/A"]. *)
Lemma ritmo_min_km_total (s : Q) : exists label, ritmo_min_km s = Ok label.
Proof.
  unfold ritmo_min_km. destruct (gt s 0); [|eauto].
  rewrite floordiv_ok, mod_ok by (intro E; discriminate E).
  cbn [bind]. eauto.
Qed.

Lemma ritmo_min_km_sentinel (s : Q) :
  s <= 0 -> ritmo_min_km s = Ok "N/A"%string.
Proof.
  intro H. unfold ritmo_min_km. apply gt_false_iff in H. rewrite H.
  reflexivity.
Qed.

(** The loop appends the dictionary of every run, in order. *)
Lemma loop_ok (activities : list Activity) (acc : list (RunRecord string)) :
  for_each activities
    (fun processed_data act =>
       if negb (String.eqb (type act) "Run") then Ok processed_data
       else r <- run_record act ;; Ok (processed_data ++ [r]))
    acc
  = Ok (acc ++ map spec_record (filter is_run activities)).
Proof.
  revert acc. induction activities as [|act activities IH]; intro acc.
  - cbn. now rewrite app_nil_r.
  - cbn [for_each filter]. unfold is_run at 1.
    destruct (String.eqb (type act) "Run"); cbn [negb bind].
    + rewrite run_record_ok. cbn [bind]. rewrite IH.
      cbn [map]. now rewrite <- app_assoc.
    + apply IH.
Qed.

(* ================================================================ *)
(** ** Facts about the frame operations *)

Lemma rows_combine_seq {R} (l : list R) (n : nat) :
  Pd.rows (combine (seq n (List.length l)) l) = l.
Proof.
  unfold Pd.rows. revert n. induction l as [|x l IH]; intro n.
  - reflexivity.
  - cbn. now rewrite IH.
Qed.

Lemma labels_combine_seq {R} (l : list R) (n : nat) :
  Pd.labels (combine (seq n (List.length l)) l) = seq n (List.length l).
Proof.
  unfold Pd.labels. revert n. induction l as [|x l IH]; intro n.
  - reflexivity.
  - cbn. now rewrite IH.
Qed.

Lemma rows_DataFrame {R} (l : list R) : Pd.rows (Pd.DataFrame l) = l.
Proof. apply rows_combine_seq. Qed.

Lemma rows_assign {R R'} (f : R -> R') (df : Pd.Frame R) :
  Pd.rows (Pd.assign f df) = map f (Pd.rows df).
Proof.
  unfold Pd.rows, Pd.assign. rewrite !map_map. reflexivity.
Qed.

Lemma labels_assign {R R'} (f : R -> R') (df : Pd.Frame R) :
  Pd.labels (Pd.assign f df) = Pd.labels df.
Proof.
  unfold Pd.labels, Pd.assign. rewrite map_map. reflexivity.
Qed.

Lemma length_rows {R} (df : Pd.Frame R) :
  List.length (Pd.rows df) = List.length df.
Proof. apply length_map. Qed.

Lemma rows_reset_index {R} (df : Pd.Frame R) :
  Pd.rows (Pd.reset_index df) = Pd.rows df.
Proof.
  unfold Pd.reset_index. rewrite <- (length_rows df).
  apply rows_combine_seq.
Qed.

Lemma labels_reset_index {R} (df : Pd.Frame R) :
  Pd.labels (Pd.reset_index df) = seq 0 (List.length df).
Proof.
  unfold Pd.reset_index. rewrite <- (length_rows df).
  apply labels_combine_seq.
Qed.

Lemma insert_desc_perm {R} (key : R -> Z) (x : nat * R) (l : Pd.Frame R) :
  Permutation (Pd.insert_desc key x l) (x :: l).
Proof.
  induction l as [|y l IH]; cbn.
  - apply Permutation_refl.
  - destruct (key (snd y) <=? key (snd x))%Z.
    + apply Permutation_refl.
    + rewrite IH. apply perm_swap.
Qed.

Lemma sort_values_desc_perm {R} (key : R -> Z) (df : Pd.Frame R) :
  Permutation (Pd.sort_values_desc key df) df.
Proof.
  induction df as [|x df IH]; cbn.
  - apply perm_nil.
  - rewrite insert_desc_perm. now apply perm_skip.
Qed.

Lemma insert_desc_sorted {R} (key : R -> Z) (x : nat * R) (l : Pd.Frame R) :
  StronglySorted (fun a b => (key (snd b) <= key (snd a))%Z) l ->
  StronglySorted (fun a b => (key (snd b) <= key (snd a))%Z)
                 (Pd.insert_desc key x l).
Proof.
  induction 1 as [|y l Hs IH Hy]; cbn.
  - constructor; constructor.
  - destruct (key (snd y) <=? key (snd x))%Z eqn:E.
    + apply Z.leb_le in E. constructor.
      * now constructor.
      * constructor; [exact E|].
        eapply Forall_impl; [|exact Hy]. cbn. intros; lia.
    + apply Z.leb_gt in E. constructor; [exact IH|].
      rewrite (insert_desc_perm key x l).
      constructor; [lia | exact Hy].
Qed.

Lemma sort_values_desc_sorted {R} (key : R -> Z) (df : Pd.Frame R) :
  StronglySorted (fun a b => (key (snd b) <= key (snd a))%Z)
                 (Pd.sort_values_desc key df).
Proof.
  induction df as [|x df IH]; cbn.
  - constructor.
  - now apply insert_desc_sorted.
Qed.

Lemma StronglySorted_map {A B} (f : A -> B) (P : B -> B -> Prop)
      (l : list A) :
  StronglySorted (fun a b => P (f a) (f b)) l ->
  StronglySorted P (map f l).
Proof.
  induction 1 as [|a l Hs IH Ha]; cbn; constructor.
  - exact IH.
  - apply Forall_map. exact Ha.
Qed.

(** [apply] with a function that never raises keeps labels and order. *)
Lemma apply_total {R R'} (f : R -> outcome R') (df : Pd.Frame R) :
  (forall r, exists r', f r = Ok r') ->
  exists df', Pd.apply f df = Ok df' /\
              Pd.labels df' = Pd.labels df /\
              Forall2 (fun r r' => f r = Ok r') (Pd.rows df) (Pd.rows df').
Proof.
  intro Hf. unfold Pd.apply.
  induction df as [|[i r] df IH].
  - exists []. cbn. repeat split. constructor.
  - destruct IH as (df' & E & Hl & Hr).
    destruct (Hf r) as (r' & Er).
    exists ((i, r') :: df'). cbn. rewrite Er. cbn [bind].
    rewrite E. cbn [bind]. repeat split.
    + f_equal. exact Hl.
    + constructor; assumption.
Qed.

Lemma StronglySorted_Forall2 {A B} (P : A -> A -> Prop) (P' : B -> B -> Prop)
      (T : A -> B -> Prop) (l : list A) (l' : list B) :
  (forall a b a' b', T a a' -> T b b' -> P a b -> P' a' b') ->
  Forall2 T l l' -> StronglySorted P l -> StronglySorted P' l'.
Proof.
  intros HT HF. induction HF as [|a a' l l' Ha HF IH]; intro Hs.
  - constructor.
  - apply StronglySorted_inv in Hs. destruct Hs as [Hs Hall].
    constructor; [now apply IH|].
    clear IH Hs. induction HF as [|b b' l l' Hb HF IH]; constructor.
    + inversion Hall; subst. eapply HT; eassumption.
    + apply IH. now inversion Hall.
Qed.

Lemma Forall2_map_l {A B C} (f : A -> B) (T : B -> C -> Prop)
      (l : list A) (l' : list C) :
  Forall2 T (map f l) l' -> Forall2 (fun a c => T (f a) c) l l'.
Proof.
  revert l'. induction l as [|a l IH]; intros l' H; inversion H; subst.
  - constructor.
  - constructor; [assumption|now apply IH].
Qed.

(* ================================================================ *)
(** ** The shape of the result of [process_activities] *)

(** [process_activities] never raises.  Its frame has the labels
    [0 .. n-1], is ordered newest first, and its rows are those of the
    runs among the activities, one row for each. *)
Lemma process_activities_shape (activities : list Activity) :
  exists df,
    process_activities activities = Ok df /\
    Pd.labels df = seq 0 (List.length df) /\
    StronglySorted newest_first (Pd.rows df) /\
    exists runs,
      Permutation runs (filter is_run activities) /\
      Forall2 shows runs (Pd.rows df).
Proof.
  unfold process_activities. rewrite loop_ok. cbn [bind app].
  destruct (map spec_record (filter is_run activities)) as [|r0 rs] eqn:E.
  - exists []. apply map_eq_nil in E. rewrite E.
    repeat split; try constructor.
    exists []. split; constructor.
  - rewrite <- E. clear r0 rs E.
    set (recs := map spec_record (filter is_run activities)).
    set (df0 := Pd.reset_index
                  (Pd.sort_values_desc (@Fecha Timestamp)
                     (Pd.assign (set_Fecha to_datetime) (Pd.DataFrame recs)))).
    destruct (apply_total
                (fun r => s <- ritmo_min_km (Ritmo_seg_km r) ;;
                          Ok {| run := r; Ritmo_min_km := s |}) df0)
      as (df & Hdf & Hlab & Hrows).
    { intro r. destruct (ritmo_min_km_total (Ritmo_seg_km r)) as (s & Es).
      rewrite Es. cbn [bind]. eauto. }
    assert (Hlen : List.length df = List.length df0).
    { rewrite <- (length_rows df), <- (length_rows df0).
      symmetry. eapply Forall2_length. exact Hrows. }
    assert (Hrow : Forall2 (fun (r : RunRecord Timestamp) (row : Row) =>
                              run row = r /\
                              ritmo_min_km (Ritmo_seg_km r)
                              = Ok (Ritmo_min_km row))
                           (Pd.rows df0) (Pd.rows df)).
    { eapply Forall2_impl; [|exact Hrows]. cbn. intros r row H.
      destruct (ritmo_min_km (Ritmo_seg_km r)) as [s|e]; [|discriminate H].
      cbn [bind] in H. injection H as <-. split; reflexivity. }
    exists df. split; [exact Hdf|]. split; [|split].
    + rewrite Hlab, Hlen. unfold df0. rewrite labels_reset_index.
      unfold Pd.reset_index. rewrite length_combine, length_seq, length_rows.
      now rewrite Nat.min_id.
    + eapply StronglySorted_Forall2
        with (P := fun a b : RunRecord Timestamp => (Fecha b <= Fecha a)%Z);
        [|exact Hrow|].
      * intros a b a' b' [Ha _] [Hb _] H. unfold newest_first.
        now rewrite Ha, Hb.
      * unfold df0. rewrite rows_reset_index. unfold Pd.rows.
        apply StronglySorted_map. apply sort_values_desc_sorted.
    + assert (Hperm : Permutation (Pd.rows df0)
                        (map (fun a => set_Fecha to_datetime (spec_record a))
                             (filter is_run activities))).
      { unfold df0. rewrite rows_reset_index. unfold Pd.rows at 1.
        rewrite (sort_values_desc_perm (@Fecha Timestamp)).
        fold (Pd.rows (Pd.assign (set_Fecha to_datetime) (Pd.DataFrame recs))).
        rewrite rows_assign, rows_DataFrame. unfold recs.
        rewrite map_map. apply Permutation_refl. }
      apply Permutation_map_inv in Hperm.
      destruct Hperm as (runs & Eruns & Hperm).
      exists runs. split; [now apply Permutation_sym|].
      rewrite Eruns in Hrow. apply Forall2_map_l in Hrow.
      eapply Forall2_impl; [|exact Hrow]. cbn. intros a row [Hr Hs].
      exists (spec_record a). split; [apply run_record_ok|]. split.
      * exact Hr.
      * rewrite <- Hs. reflexivity.
Qed.

Lemma Forall2_in_right {A B} (T : A -> B -> Prop) (l : list A) (l' : list B)
      (b : B) :
  Forall2 T l l' -> In b l' -> exists a, In a l /\ T a b.
Proof.
  induction 1 as [|a b' l l' Hab HF IH]; intro Hin.
  - contradiction.
  - destruct Hin as [<-|Hin].
    + exists a. split; [now left|assumption].
    + destruct (IH Hin) as (a' & Ha' & HT). exists a'. split; [now right|assumption].
Qed.

Lemma is_run_true_iff (act : Activity) :
  is_run act = true <-> type act = "Run"%string.
Proof. unfold is_run. apply String.eqb_eq. Qed.

(** What a row that shows an activity holds. *)
Lemma shows_fields (act : Activity) (row : Row) :
  shows act row ->
  run row = set_Fecha to_datetime (spec_record act) /\
  ritmo_min_km (spec_ritmo_seg_km act) = Ok (Ritmo_min_km row).
Proof.
  intros (r & Hr & Hrun & Hlabel).
  rewrite run_record_ok in Hr. injection Hr as <-.
  split; assumption.
Qed.









(* ================================================================ *)
(** ** The transform stage *)


(** C3.  [process_activities] makes one row for each activity whose type
    equals ['Run'] and none for any other activity: the rows of the frame
    show, one for one, a rearrangement of the runs among the activities.
    When no activity is a run the result is the empty frame. *)
Theorem C3_only_runs (activities : list Activity) :
  exists df,
    process_activities activities = Ok df /\
    (exists runs,
        Permutation runs
          (filter (fun act => String.eqb (type act) "Run") activities) /\
        Forall2 shows runs (Pd.rows df)) /\
    (Forall (fun act => type act <> "Run"%string) activities ->
     df = Pd.DataFrame [] /\ Pd.empty df = true).
Proof.
  destruct (process_activities_shape activities)
    as (df & Hdf & _ & _ & runs & Hperm & Hshows).
  exists df. split; [exact Hdf|]. split.
  - exists runs. split; assumption.
  - intro Hnone.
    assert (E : filter is_run activities = []).
    { clear - Hnone. induction Hnone as [|act l Hact _ IH]; [reflexivity|].
      cbn. destruct (is_run act) eqn:Er; [|exact IH].
      apply is_run_true_iff in Er. contradiction. }
    rewrite E in Hperm. apply Permutation_sym, Permutation_nil in Hperm.
    subst runs.
    destruct df as [|ir df]; [split; reflexivity|]. inversion Hshows.
Qed.





(** C9.  The rows of the frame are ordered by ['Fecha'], newest first, and
    the index is [0 .. n-1]. *)
Theorem C9_newest_first (activities : list Activity) :
  exists df,
    process_activities activities = Ok df /\
    StronglySorted (fun r1 r2 : Row => (Fecha r2 <= Fecha r1)%Z) (Pd.rows df) /\
    Pd.labels df = seq 0 (List.length df).
Proof.
  destruct (process_activities_shape activities)
    as (df & Hdf & Hlabels & Hsorted & _).
  exists df. repeat split; assumption.
Qed.

(* ================================================================ *)
(** ** The fetch stage *)

Lemma get_strava_activities_raise (e : exn) :
  api_interaction = Raise e ->
  get_strava_activities
  = ([], [St_error ("Error al conectar con Strava: " ++ str_exn e)%string]).
Proof.
  intro H. unfold get_strava_activities. rewrite H. reflexivity.
Qed.

Lemma get_strava_activities_ok (activities : list Activity) :
  api_interaction = Ok activities ->
  get_strava_activities = (activities, []).
Proof.
  intro H. unfold get_strava_activities. rewrite H. reflexivity.
Qed.

(** C2.  When the interaction with the API raises an exception [e], be it
    in the token refresh, in reading the access token or in the activity
    fetch, [get_strava_activities] catches it, reports it and returns the
    empty list. *)
Theorem C2_exception_gives_empty (e : exn) :
  refresh_access_token CLIENT_ID CLIENT_SECRET REFRESH_TOKEN = Raise e \/
  (exists token_info,
      refresh_access_token CLIENT_ID CLIENT_SECRET REFRESH_TOKEN
      = Ok token_info /\
      getitem token_info "access_token" = Raise e) \/
  (exists token_info access_token,
      refresh_access_token CLIENT_ID CLIENT_SECRET REFRESH_TOKEN
      = Ok token_info /\
      getitem token_info "access_token" = Ok access_token /\
      get_activities access_token (Some 100%nat) = Raise e) ->
  api_interaction = Raise e /\
  get_strava_activities
  = ([], [St_error ("Error al conectar con Strava: " ++ str_exn e)%string]).
Proof.
  intro H.
  assert (Hraise : api_interaction = Raise e).
  { unfold api_interaction.
    destruct H as [H|[(ti & H1 & H2)|(ti & tok & H1 & H2 & H3)]].
    - rewrite H. reflexivity.
    - rewrite H1. cbn [bind]. rewrite H2. reflexivity.
    - rewrite H1. cbn [bind]. rewrite H2. cbn [bind]. exact H3. }
  split; [exact Hraise|]. now apply get_strava_activities_raise.
Qed.

(** C6.  [get_strava_activities] asks the client for at most 100
    activities: given a client that returns no more activities than the
    limit it is asked for, the returned list has at most 100 elements, and
    on success it is the list the client returned for the limit 100. *)
Theorem C6_at_most_100 :
  (forall access_token n l,
      get_activities access_token (Some n) = Ok l ->
      (List.length l <= n)%nat) ->
  (List.length (fst get_strava_activities) <= 100)%nat /\
  (forall activities,
      api_interaction = Ok activities ->
      fst get_strava_activities = activities /\
      exists access_token,
        get_activities access_token (Some 100%nat) = Ok activities).
Proof.
  intro Hlimit.
  assert (Hreq : forall activities,
             api_interaction = Ok activities ->
             exists access_token,
               get_activities access_token (Some 100%nat) = Ok activities).
  { unfold api_interaction. intros activities H.
    destruct (refresh_access_token CLIENT_ID CLIENT_SECRET REFRESH_TOKEN)
      as [ti|e]; [|discriminate H].
    cbn [bind] in H.
    destruct (getitem ti "access_token") as [tok|e]; [|discriminate H].
    cbn [bind] in H. now exists tok. }
  split.
  - destruct api_interaction as [activities|e] eqn:E.
    + rewrite (get_strava_activities_ok E). cbn [fst].
      destruct (Hreq activities eq_refl) as (tok & Htok).
      exact (Hlimit tok 100%nat activities Htok).
    + rewrite (get_strava_activities_raise E). cbn. lia.
  - intros activities H. split.
    + now rewrite (get_strava_activities_ok H).
    + now apply Hreq.
Qed.

(* ================================================================ *)
(** ** Extrema, lookups and sums on frames *)

Lemma arg_best_in (better : Q -> Q -> bool) (best : nat * Q) (s : Pd.Series) :
  In (Pd.arg_best better best s) (best :: s).
Proof.
  revert best. induction s as [|x s IH]; intro best; cbn [Pd.arg_best].
  - now left.
  - destruct (IH (if better (snd x) (snd best) then x else best)) as [H|H].
    + destruct (better (snd x) (snd best)); rewrite <- H; cbn; auto.
    + right. now right.
Qed.

Lemma arg_best_max (best : nat * Q) (s : Pd.Series) :
  forall y, In y (best :: s) -> snd y <= snd (Pd.arg_best Py.gt best s).
Proof.
  revert best. induction s as [|x s IH]; intros best y Hy; cbn [Pd.arg_best].
  - destruct Hy as [<-|[]]. apply Qle_refl.
  - set (best' := if gt (snd x) (snd best) then x else best).
    assert (Hb : snd best <= snd best' /\ snd x <= snd best').
    { unfold best'. destruct (gt (snd x) (snd best)) eqn:E.
      - apply gt_true_iff in E. split; [now apply Qlt_le_weak|apply Qle_refl].
      - apply gt_false_iff in E. split; [apply Qle_refl|exact E]. }
    pose proof (IH best' best' (or_introl eq_refl)) as Hbest.
    destruct Hy as [<-|[<-|Hy]].
    + eapply Qle_trans; [apply Hb|exact Hbest].
    + eapply Qle_trans; [apply Hb|exact Hbest].
    + apply IH. now right.
Qed.

Lemma arg_best_min (best : nat * Q) (s : Pd.Series) :
  forall y, In y (best :: s) ->
            snd (Pd.arg_best (fun a b => Py.gt b a) best s) <= snd y.
Proof.
  revert best. induction s as [|x s IH]; intros best y Hy; cbn [Pd.arg_best].
  - destruct Hy as [<-|[]]. apply Qle_refl.
  - set (best' := if gt (snd best) (snd x) then x else best).
    assert (Hb : snd best' <= snd best /\ snd best' <= snd x).
    { unfold best'. destruct (gt (snd best) (snd x)) eqn:E.
      - apply gt_true_iff in E. split; [now apply Qlt_le_weak|apply Qle_refl].
      - apply gt_false_iff in E. split; [apply Qle_refl|exact E]. }
    pose proof (IH best' best' (or_introl eq_refl)) as Hbest.
    destruct Hy as [<-|[<-|Hy]].
    + eapply Qle_trans; [exact Hbest|apply Hb].
    + eapply Qle_trans; [exact Hbest|apply Hb].
    + apply IH. now right.
Qed.

Lemma in_column {R} (col : R -> Q) (df : Pd.Frame R) (i : nat) (v : Q) :
  In (i, v) (Pd.column col df) <-> exists r, In (i, r) df /\ v = col r.
Proof.
  unfold Pd.column, Pd.assign. rewrite in_map_iff. split.
  - intros ([j r] & E & Hin). cbn in E. injection E as <- <-. eauto.
  - intros (r & Hin & ->). exists (i, r). auto.
Qed.

Lemma in_mask {R} (p : R -> bool) (df : Pd.Frame R) (ir : nat * R) :
  In ir (Pd.mask p df) <-> In ir df /\ p (snd ir) = true.
Proof. unfold Pd.mask. apply filter_In. Qed.

Lemma in_rows {R} (df : Pd.Frame R) (r : R) :
  In r (Pd.rows df) <-> exists i, In (i, r) df.
Proof.
  unfold Pd.rows. rewrite in_map_iff. split.
  - intros ([i r'] & E & Hin). cbn in E. subst r'. eauto.
  - intros (i & Hin). exists (i, r). auto.
Qed.

(** [idxmax] and [idxmin] succeed on a series that is not empty. *)
Lemma idxmax_total {R} (col : R -> Q) (df : Pd.Frame R) :
  df <> [] -> exists i, Pd.idxmax (Pd.column col df) = Ok i.
Proof.
  intro H. destruct df as [|x df]; [contradiction|]. cbn. eauto.
Qed.

Lemma idxmin_total {R} (col : R -> Q) (df : Pd.Frame R) :
  df <> [] -> exists i, Pd.idxmin (Pd.column col df) = Ok i.
Proof.
  intro H. destruct df as [|x df]; [contradiction|]. cbn. eauto.
Qed.

(** The label [idxmax] returns is that of a row with the largest value. *)
Lemma idxmax_greatest {R} (col : R -> Q) (df : Pd.Frame R) (i : nat) :
  Pd.idxmax (Pd.column col df) = Ok i ->
  exists r, In (i, r) df /\ forall jr, In jr df -> col (snd jr) <= col r.
Proof.
  unfold Pd.idxmax. destruct (Pd.column col df) as [|x s] eqn:E;
    [discriminate|].
  intro H. injection H as <-.
  pose proof (arg_best_in Py.gt x s) as Hin.
  pose proof (@arg_best_max x s) as Hmax.
  rewrite <- E in Hin, Hmax.
  destruct (Pd.arg_best Py.gt x s) as [i v]. cbn [fst snd] in *.
  apply in_column in Hin. destruct Hin as (r & Hin & ->).
  exists r. split; [exact Hin|]. intros [j r'] Hj.
  apply (Hmax (j, col r')). apply in_column. eauto.
Qed.

Lemma idxmin_least {R} (col : R -> Q) (df : Pd.Frame R) (i : nat) :
  Pd.idxmin (Pd.column col df) = Ok i ->
  exists r, In (i, r) df /\ forall jr, In jr df -> col r <= col (snd jr).
Proof.
  unfold Pd.idxmin. destruct (Pd.column col df) as [|x s] eqn:E;
    [discriminate|].
  intro H. injection H as <-.
  pose proof (arg_best_in (fun a b => Py.gt b a) x s) as Hin.
  pose proof (@arg_best_min x s) as Hmin.
  rewrite <- E in Hin, Hmin.
  destruct (Pd.arg_best (fun a b => Py.gt b a) x s) as [i v].
  cbn [fst snd] in *.
  apply in_column in Hin. destruct Hin as (r & Hin & ->).
  exists r. split; [exact Hin|]. intros [j r'] Hj.
  apply (Hmin (j, col r')). apply in_column. eauto.
Qed.

Lemma loc_in {R} (df : Pd.Frame R) (i : nat) (r : R) :
  Pd.loc df i = Ok r -> In (i, r) df.
Proof.
  induction df as [|[j r'] df IH]; cbn; [discriminate|].
  destruct (j =? i)%nat eqn:E.
  - apply Nat.eqb_eq in E. intro H. injection H as <-. subst j. now left.
  - intro H. right. now apply IH.
Qed.

Lemma loc_total {R} (df : Pd.Frame R) (i : nat) (r : R) :
  In (i, r) df -> exists r', Pd.loc df i = Ok r'.
Proof.
  induction df as [|[j r'] df IH]; cbn; [contradiction|].
  intro H. destruct (j =? i)%nat eqn:E; [eauto|].
  destruct H as [H|H]; [|now apply IH].
  injection H as -> _. rewrite Nat.eqb_refl in E. discriminate.
Qed.

(** With distinct labels, [loc] returns the row that carries the label. *)
Lemma loc_unique {R} (df : Pd.Frame R) (i : nat) (r : R) :
  NoDup (Pd.labels df) -> In (i, r) df -> Pd.loc df i = Ok r.
Proof.
  induction df as [|[j r'] df IH]; cbn; [contradiction|].
  intros Hnd H. inversion Hnd as [|? ? Hnotin Hnd']; subst.
  destruct H as [H|H].
  - injection H as -> ->. now rewrite Nat.eqb_refl.
  - destruct (j =? i)%nat eqn:E; [|now apply IH].
    apply Nat.eqb_eq in E. subst j. exfalso. apply Hnotin.
    unfold Pd.labels. apply in_map_iff. exists (i, r). auto.
Qed.

Lemma labels_mask_nodup {R} (p : R -> bool) (df : Pd.Frame R) :
  NoDup (Pd.labels df) -> NoDup (Pd.labels (Pd.mask p df)).
Proof.
  unfold Pd.labels, Pd.mask. induction df as [|x df IH]; cbn; intro H.
  - constructor.
  - inversion H as [|? ? Hnotin Hnd]; subst.
    destruct (p (snd x)); [|now apply IH].
    cbn. constructor; [|now apply IH].
    intro Hin. apply Hnotin. apply in_map_iff in Hin.
    destruct Hin as (y & Ey & Hy). apply filter_In in Hy.
    apply in_map_iff. exists y. destruct Hy as [Hy _]. split; assumption.
Qed.

(** [sum] adds the values up. *)
Lemma fold_left_Qplus (l : list Q) (a : Q) :
  fold_left Qplus l a == a + sum_of l.
Proof.
  revert a. induction l as [|x l IH]; intro a; cbn.
  - lra.
  - rewrite IH. lra.
Qed.

Lemma sum_column {R} (col : R -> Q) (df : Pd.Frame R) :
  Pd.sum (Pd.column col df) == sum_of (map col (Pd.rows df)).
Proof.
  unfold Pd.sum, Pd.column. rewrite rows_assign, fold_left_Qplus. lra.
Qed.

Lemma mean_column {R} (col : R -> Q) (df : Pd.Frame R) :
  (Pd.rows df = [] -> Pd.mean (Pd.column col df) = None) /\
  (Pd.rows df <> [] ->
   exists m,
     Pd.mean (Pd.column col df) = Some m /\
     m == sum_of (map col (Pd.rows df))
          / inject_Z (Z.of_nat (List.length (Pd.rows df)))).
Proof.
  split.
  - intro H. destruct df; [reflexivity|discriminate H].
  - intro H. destruct df as [|x df]; [contradiction|].
    eexists. split; [reflexivity|].
    rewrite (sum_column col (x :: df)).
    unfold Pd.column, Pd.assign, Pd.rows. rewrite !length_map.
    reflexivity.
Qed.

Lemma rows_mask {R} (p : R -> bool) (df : Pd.Frame R) :
  Pd.rows (Pd.mask p df) = filter p (Pd.rows df).
Proof.
  unfold Pd.rows, Pd.mask. induction df as [|x df IH]; cbn; [reflexivity|].
  destruct (p (snd x)); cbn; now rewrite IH.
Qed.

(* ================================================================ *)
(** ** The best-marks panel *)

Ltac bind_inv H x E :=
  match type of H with
  | Py.bind ?m _ = _ =>
      destruct m as [x|] eqn:E; [cbn [Py.bind] in H | discriminate H]
  end.

(** No row of at least 1 km: the panel shows no best mark. *)
Lemma best_marks_none (df : Pd.Frame Row) :
  significant_rows df = [] -> best_marks df = Ok None.
Proof.
  unfold significant_rows, best_marks. rewrite <- rows_mask.
  fold (df_significant df). intro H.
  destruct (df_significant df); [reflexivity|discriminate H].
Qed.

(** The steps behind a panel that shows best marks. *)
Lemma best_marks_inv (df : Pd.Frame Row) (bm : BestMarks) :
  best_marks df = Ok (Some bm) ->
  exists i j k,
    Pd.idxmax (Pd.column (fun r : Row => Distancia_km r) (df_significant df))
    = Ok i /\
    Pd.loc (df_significant df) i = Ok (longest_run bm) /\
    Pd.idxmin
      (Pd.column (fun r : Row => Ritmo_seg_km r)
         (Pd.mask (fun r : Row => gt (Ritmo_seg_km r) 0) (df_significant df)))
    = Ok j /\
    Pd.loc (df_significant df) j = Ok (fastest_run bm) /\
    Pd.idxmax (Pd.column (fun r : Row => Desnivel_m r) (df_significant df))
    = Ok k /\
    Pd.loc (df_significant df) k = Ok (most_elevation_run bm).
Proof.
  unfold best_marks. intro H.
  destruct (negb (Pd.empty (df_significant df))); [|discriminate H].
  bind_inv H i Ei. bind_inv H r1 E1. bind_inv H j Ej. bind_inv H r2 E2.
  bind_inv H k Ek. bind_inv H r3 E3.
  injection H as <-. exists i, j, k. cbn. auto 10.
Qed.

(** The panel shows best marks as soon as a row of at least 1 km has a
    strictly positive pace. *)
Lemma best_marks_some (df : Pd.Frame Row) (row : Row) :
  In row (significant_rows df) -> 0 < Ritmo_seg_km row ->
  exists bm, best_marks df = Ok (Some bm).
Proof.
  unfold significant_rows. rewrite <- rows_mask. fold (df_significant df).
  intros Hin Hpos. apply in_rows in Hin. destruct Hin as (l & Hin).
  assert (Hne : df_significant df <> []) by (intro E; rewrite E in Hin; easy).
  unfold best_marks.
  destruct (df_significant df) as [|x s] eqn:Es; [contradiction|].
  cbn [Pd.empty negb]. rewrite <- Es in *. clear x s Es.
  destruct (idxmax_total (fun r : Row => Distancia_km r) Hne) as (i & Ei).
  rewrite Ei. cbn [bind].
  destruct (idxmax_greatest _ _ Ei) as (r1 & Hr1 & _).
  destruct (loc_total _ _ _ Hr1) as (r1' & E1). rewrite E1. cbn [bind].
  assert (Hfast : Pd.mask (fun r : Row => gt (Ritmo_seg_km r) 0)
                          (df_significant df) <> []).
  { intro E. assert (Hm : In (l, row)
                            (Pd.mask (fun r : Row => gt (Ritmo_seg_km r) 0)
                                     (df_significant df))).
    { apply in_mask. split; [exact Hin|]. now apply gt_true_iff. }
    rewrite E in Hm. contradiction. }
  destruct (idxmin_total (fun r : Row => Ritmo_seg_km r) Hfast) as (j & Ej).
  rewrite Ej. cbn [bind].
  destruct (idxmin_least _ _ Ej) as (r2 & Hr2 & _).
  apply in_mask in Hr2. destruct Hr2 as [Hr2 _].
  destruct (loc_total _ _ _ Hr2) as (r2' & E2). rewrite E2. cbn [bind].
  destruct (idxmax_total (fun r : Row => Desnivel_m r) Hne) as (k & Ek).
  rewrite Ek. cbn [bind].
  destruct (idxmax_greatest _ _ Ek) as (r3 & Hr3 & _).
  destruct (loc_total _ _ _ Hr3) as (r3' & E3). rewrite E3. cbn [bind].
  eauto.
Qed.

(** On a frame with distinct labels, the best marks are extrema among the
    rows of at least 1 km. *)
Lemma best_marks_extrema (df : Pd.Frame Row) (bm : BestMarks) :
  NoDup (Pd.labels df) ->
  best_marks df = Ok (Some bm) ->
  best_among (significant_rows df) bm.
Proof.
  intros Hnd H. apply best_marks_inv in H.
  destruct H as (i & j & k & Ei & E1 & Ej & E2 & Ek & E3).
  assert (Hnd' : NoDup (Pd.labels (df_significant df)))
    by now apply labels_mask_nodup.
  unfold significant_rows. rewrite <- rows_mask. fold (df_significant df).
  apply idxmax_greatest in Ei. destruct Ei as (r1 & Hr1 & Hmax1).
  rewrite (loc_unique _ _ _ Hnd' Hr1) in E1. injection E1 as E1.
  apply idxmin_least in Ej. destruct Ej as (r2 & Hr2 & Hmin2).
  pose proof Hr2 as Hr2'. apply in_mask in Hr2'. destruct Hr2' as [Hr2' Hpos2].
  rewrite (loc_unique _ _ _ Hnd' Hr2') in E2. injection E2 as E2.
  apply idxmax_greatest in Ek. destruct Ek as (r3 & Hr3 & Hmax3).
  rewrite (loc_unique _ _ _ Hnd' Hr3) in E3. injection E3 as E3.
  unfold best_among. rewrite <- E1, <- E2, <- E3.
  repeat split.
  - apply in_rows. eauto.
  - intros row Hrow. apply in_rows in Hrow. destruct Hrow as (l & Hrow).
    apply (Hmax1 (l, row) Hrow).
  - apply in_rows. eauto.
  - cbn in Hpos2. now apply gt_true_iff in Hpos2.
  - intros row Hrow Hpos. apply in_rows in Hrow. destruct Hrow as (l & Hrow).
    apply (Hmin2 (l, row)). apply in_mask. split; [exact Hrow|].
    now apply gt_true_iff.
  - apply in_rows. eauto.
  - intros row Hrow. apply in_rows in Hrow. destruct Hrow as (l & Hrow).
    apply (Hmax3 (l, row) Hrow).
Qed.

(** The best marks are always rows of at least 1 km. *)
Lemma best_marks_significant (df : Pd.Frame Row) (bm : BestMarks) :
  best_marks df = Ok (Some bm) ->
  In (longest_run bm) (significant_rows df) /\
  In (fastest_run bm) (significant_rows df) /\
  In (most_elevation_run bm) (significant_rows df).
Proof.
  intro H. apply best_marks_inv in H.
  destruct H as (i & j & k & _ & E1 & _ & E2 & _ & E3).
  unfold significant_rows. rewrite <- rows_mask. fold (df_significant df).
  apply loc_in in E1, E2, E3. repeat split; apply in_rows; eauto.
Qed.

Lemma in_significant_rows (df : Pd.Frame Row) (row : Row) :
  In row (significant_rows df) <->
  In row (Pd.rows df) /\ 1 <= Distancia_km row.
Proof.
  unfold significant_rows. rewrite filter_In, ge_true_iff. reflexivity.
Qed.

(* ================================================================ *)
(** ** The summary and the best marks *)

(** C5, as amended.  On the frame of the runs, the total distance, time and
    elevation are the sums of their columns; the average pace is the mean
    of the strictly positive paces (NaN when there is none); and the best
    marks, when the panel shows them, are extrema among the rows of at
    least 1 km: largest distance, smallest strictly positive pace, largest
    elevation.  The panel shows them as soon as a row of at least 1 km has
    a strictly positive pace. *)
Theorem C5_aggregates (activities : list Activity) :
  exists df_runs,
    process_activities activities = Ok df_runs /\
    total_km df_runs
    == sum_of (map (fun r : Row => Distancia_km r) (Pd.rows df_runs)) /\
    total_time_min df_runs
    == sum_of (map (fun r : Row => Tiempo_min r) (Pd.rows df_runs)) /\
    total_elevation df_runs
    == sum_of (map (fun r : Row => Desnivel_m r) (Pd.rows df_runs)) /\
    (positive_paces df_runs = [] -> avg_pace_seconds df_runs = None) /\
    (positive_paces df_runs <> [] ->
     exists m,
       avg_pace_seconds df_runs = Some m /\
       m == sum_of (positive_paces df_runs)
            / inject_Z (Z.of_nat (List.length (positive_paces df_runs)))) /\
    (forall bm, best_marks df_runs = Ok (Some bm) ->
                best_among (significant_rows df_runs) bm) /\
    (forall row, In row (significant_rows df_runs) ->
                 0 < Ritmo_seg_km row ->
                 exists bm, best_marks df_runs = Ok (Some bm)).
Proof.
  destruct (process_activities_shape activities)
    as (df & Hdf & Hlabels & _ & _).
  exists df. split; [exact Hdf|].
  split; [apply sum_column|]. split; [apply sum_column|].
  split; [apply sum_column|].
  destruct (mean_column (fun r : Row => Ritmo_seg_km r)
              (Pd.mask (fun r : Row => gt (Ritmo_seg_km r) 0) df))
    as [Hnone Hsome].
  rewrite rows_mask in Hnone, Hsome.
  unfold positive_paces, avg_pace_seconds.
  split; [|split; [|split]].
  - intro E. apply map_eq_nil in E. now apply Hnone.
  - intro E. rewrite length_map. apply Hsome. intro E'. apply E.
    now rewrite E'.
  - intros bm Hbm. apply best_marks_extrema; [|exact Hbm].
    rewrite Hlabels. apply seq_NoDup.
  - intros row Hin Hpos. eapply best_marks_some; eassumption.
Qed.

(** C10.  The best-marks panel only selects runs of at least 1 km: each of
    the longest run, the fastest run and the run with most elevation is a
    row of the frame with ['Distancia (km)'] at least 1; and when every
    run is shorter than 1 km the panel shows no best mark. *)
Theorem C10_best_marks_at_least_1km (df_runs : Pd.Frame Row) :
  (forall bm, best_marks df_runs = Ok (Some bm) ->
     forall row,
       row = longest_run bm \/ row = fastest_run bm \/
       row = most_elevation_run bm ->
       In row (Pd.rows df_runs) /\ 1 <= Distancia_km row) /\
  ((forall row, In row (Pd.rows df_runs) -> Distancia_km row < 1) ->
   best_marks df_runs = Ok None).
Proof.
  split.
  - intros bm Hbm row Hrow.
    destruct (best_marks_significant df_runs Hbm) as (H1 & H2 & H3).
    apply in_significant_rows.
    destruct Hrow as [->|[->| ->]]; assumption.
  - intro Hshort. apply best_marks_none.
    destruct (significant_rows df_runs) as [|row l] eqn:E; [reflexivity|].
    assert (Hin : In row (significant_rows df_runs))
      by (rewrite E; now left).
    apply in_significant_rows in Hin. destruct Hin as [Hin Hge].
    exfalso. apply (Qlt_not_le _ _ (Hshort row Hin) Hge).
Qed.

(* ================================================================ *)
(** ** Whole minutes and seconds *)

Lemma Qfloor_unique (x : Q) (n : Z) :
  inject_Z n <= x -> x < inject_Z (n + 1) -> Qfloor x = n.
Proof.
  intros Hlo Hhi.
  pose proof (Qfloor_le x) as Flo. pose proof (Qlt_floor x) as Fhi.
  assert (H1 : (n < Qfloor x + 1)%Z).
  { rewrite Zlt_Qlt. eapply Qle_lt_trans; eassumption. }
  assert (H2 : (Qfloor x < n + 1)%Z).
  { rewrite Zlt_Qlt. eapply Qle_lt_trans; eassumption. }
  lia.
Qed.

Lemma int_inject_Z (n : Z) : Py.int (inject_Z n) = n.
Proof.
  unfold Py.int. destruct (Qle_bool 0 (inject_Z n)).
  - apply Qfloor_Z.
  - apply Qceiling_Z.
Qed.

(** The floor of [x / 60] is the integer quotient of the floor of [x]. *)
Lemma Qfloor_div_60 (x : Q) : Qfloor (x / 60) = (Qfloor x / 60)%Z.
Proof.
  pose proof (Qfloor_le x) as Flo. pose proof (Qlt_floor x) as Fhi.
  pose proof (Z.div_mod (Qfloor x) 60 ltac:(lia)) as E.
  pose proof (Z.mod_pos_bound (Qfloor x) 60 ltac:(lia)) as B.
  set (k := (Qfloor x / 60)%Z) in *. set (j := (Qfloor x mod 60)%Z) in *.
  assert (Hk : inject_Z (60 * k) <= inject_Z (Qfloor x))
    by (rewrite <- Zle_Qle; lia).
  assert (Hk' : inject_Z (Qfloor x + 1) <= inject_Z (60 * (k + 1)))
    by (rewrite <- Zle_Qle; lia).
  rewrite inject_Z_mult in Hk, Hk'.
  rewrite (inject_Z_plus k 1), (inject_Z_plus (Qfloor x) 1) in Hk'.
  rewrite inject_Z_plus in Fhi.
  change (inject_Z 60) with 60 in *. change (inject_Z 1) with 1 in *.
  apply Qfloor_unique.
  - unfold Qdiv. change (/ 60) with (1 # 60).
    clearbody k. clear - Flo Hk. lra.
  - rewrite inject_Z_plus. change (inject_Z 1) with 1.
    unfold Qdiv. change (/ 60) with (1 # 60).
    clearbody k. clear - Fhi Hk'. lra.
Qed.

(** The whole part of [x % 60] is the remainder of the floor of [x]. *)
Lemma int_mod_60 (x : Q) :
  Py.int (x - 60 * inject_Z (Qfloor (x / 60))) = (Qfloor x mod 60)%Z.
Proof.
  rewrite Qfloor_div_60.
  pose proof (Qfloor_le x) as Flo. pose proof (Qlt_floor x) as Fhi.
  pose proof (Z.div_mod (Qfloor x) 60 ltac:(lia)) as E.
  pose proof (Z.mod_pos_bound (Qfloor x) 60 ltac:(lia)) as B.
  set (k := (Qfloor x / 60)%Z) in *. set (j := (Qfloor x mod 60)%Z) in *.
  assert (Ef : inject_Z (Qfloor x) == 60 * inject_Z k + inject_Z j).
  { rewrite E. rewrite inject_Z_plus, inject_Z_mult. reflexivity. }
  assert (Hj : 0 <= inject_Z j)
    by (change 0 with (inject_Z 0); rewrite <- Zle_Qle; lia).
  rewrite inject_Z_plus in Fhi. change (inject_Z 1) with 1 in Fhi.
  clearbody k j.
  assert (Hlo : inject_Z j <= x - 60 * inject_Z k) by lra.
  assert (Hhi : x - 60 * inject_Z k < inject_Z (j + 1)).
  { rewrite inject_Z_plus. change (inject_Z 1) with 1. lra. }
  unfold Py.int.
  assert (Hpos : Qle_bool 0 (x - 60 * inject_Z k) = true).
  { apply Qle_bool_iff. lra. }
  rewrite Hpos. now apply Qfloor_unique.
Qed.

Lemma horas_minutos_ok (total : Q) :
  horas_minutos total = Ok ((Qfloor total / 60)%Z, (Qfloor total mod 60)%Z).
Proof.
  unfold horas_minutos.
  rewrite floordiv_ok, mod_ok by (intro E; discriminate E).
  cbn [bind]. rewrite int_inject_Z, Qfloor_div_60, <- Qfloor_div_60.
  rewrite int_mod_60. reflexivity.
Qed.

Lemma avg_pace_min_sec_ok (avg : Q) :
  avg_pace_min_sec (Some avg)
  = Ok ((Qfloor avg / 60)%Z, (Qfloor avg mod 60)%Z).
Proof.
  unfold avg_pace_min_sec, floordiv_nan, mod_nan.
  rewrite floordiv_ok, mod_ok by (intro E; discriminate E).
  cbn [bind int_nan]. rewrite int_inject_Z, int_mod_60, Qfloor_div_60.
  reflexivity.
Qed.

Lemma avg_pace_min_sec_nan :
  avg_pace_min_sec None
  = Raise (ValueError "cannot convert float NaN to integer").
Proof. reflexivity. Qed.

(** X1.  For a strictly positive pace of [s] seconds per km the label is
    the whole seconds of [s], split into minutes and seconds, each shown
    with at least two digits: the pace is cut to the second, never rounded
    up, and the seconds shown are between 0 and 59. *)
Theorem X1_pace_label_whole_seconds (s : Q) :
  0 < s ->
  exists m r : Z,
    ritmo_min_km s = Ok (format_02d m ++ ":" ++ format_02d r)%string /\
    (0 <= m)%Z /\ (0 <= r < 60)%Z /\
    (60 * m + r)%Z = Qfloor s /\
    inject_Z (60 * m + r) <= s < inject_Z (60 * m + r) + 1.
Proof.
  intro Hs.
  exists (Qfloor s / 60)%Z, (Qfloor s mod 60)%Z.
  pose proof (Z.div_mod (Qfloor s) 60 ltac:(lia)) as E.
  pose proof (Z.mod_pos_bound (Qfloor s) 60 ltac:(lia)) as B.
  assert (Hf : (0 <= Qfloor s)%Z).
  { change 0%Z with (Qfloor 0). apply Qfloor_resp_le. lra. }
  split; [|split; [|split; [|split]]].
  - unfold ritmo_min_km. apply gt_true_iff in Hs. rewrite Hs.
    rewrite floordiv_ok, mod_ok by (intro E'; discriminate E').
    cbn [bind]. rewrite int_inject_Z, int_mod_60, Qfloor_div_60.
    reflexivity.
  - apply Z.div_pos; lia.
  - exact B.
  - lia.
  - rewrite <- E. pose proof (Qfloor_le s). pose proof (Qlt_floor s) as Fhi.
    rewrite inject_Z_plus in Fhi. change (inject_Z 1) with 1 in Fhi.
    split; assumption.
Qed.

(** X2.  The total time is shown as whole hours and minutes of the summed
    minutes: [60 * horas + minutos] is the floor of the total, and the
    minutes are between 0 and 59.  The conversion never raises. *)
Theorem X2_total_time_hours_minutes (total : Q) :
  exists horas minutos : Z,
    horas_minutos total = Ok (horas, minutos) /\
    (0 <= minutos < 60)%Z /\
    (60 * horas + minutos)%Z = Qfloor total /\
    (0 <= total -> (0 <= horas)%Z).
Proof.
  exists (Qfloor total / 60)%Z, (Qfloor total mod 60)%Z.
  pose proof (Z.div_mod (Qfloor total) 60 ltac:(lia)) as E.
  pose proof (Z.mod_pos_bound (Qfloor total) 60 ltac:(lia)) as B.
  split; [apply horas_minutos_ok|]. split; [exact B|]. split; [lia|].
  intro H. apply Z.div_pos; [|lia].
  change 0%Z with (Qfloor 0). now apply Qfloor_resp_le.
Qed.

(* ================================================================ *)
(** ** The rows of the frame and the runs of the feed *)


Lemma Forall2_in_left {A B} (T : A -> B -> Prop) (l : list A) (l' : list B)
      (a : A) :
  Forall2 T l l' -> In a l -> exists b, In b l' /\ T a b.
Proof.
  induction 1 as [|a' b l l' Hab HF IH]; intro Hin.
  - contradiction.
  - destruct Hin as [<-|Hin].
    + exists b. split; [now left|assumption].
    + destruct (IH Hin) as (b' & Hb' & HT).
      exists b'. split; [now right|assumption].
Qed.

(** The frame of [process_activities], row by row against the runs. *)
Lemma process_activities_runs (activities : list Activity) :
  exists df runs,
    process_activities activities = Ok df /\
    Permutation runs (runs_of activities) /\
    NoDup (Pd.labels df) /\
    Forall2 (fun act (row : Row) =>
               shows act row /\
               run row = set_Fecha to_datetime (spec_record act))
            runs (Pd.rows df).
Proof.
  destruct (process_activities_shape activities)
    as (df & Hdf & Hlabels & _ & runs & Hperm & Hshows).
  exists df, runs. split; [exact Hdf|]. split; [exact Hperm|].
  split; [rewrite Hlabels; apply seq_NoDup|].
  eapply Forall2_impl; [|exact Hshows]. cbn. intros act row H.
  split; [exact H|]. now apply shows_fields in H.
Qed.








(* ================================================================ *)
(** ** The page *)

Lemma mask_nil {R} (p : R -> bool) (df : Pd.Frame R) :
  (forall ir, In ir df -> p (snd ir) = false) -> Pd.mask p df = [].
Proof.
  unfold Pd.mask. induction df as [|x df IH]; intro H; cbn; [reflexivity|].
  rewrite (H x (or_introl eq_refl)). apply IH. intros ir Hin.
  apply H. now right.
Qed.

(** Rows of at least 1 km, none of them with a pace: the minimum pace is
    asked of an empty series and the panel raises. *)
Lemma best_marks_raises (df : Pd.Frame Row) :
  significant_rows df <> [] ->
  (forall row, In row (significant_rows df) -> Ritmo_seg_km row <= 0) ->
  best_marks df
  = Raise (ValueError "attempt to get argmin of an empty sequence").
Proof.
  unfold significant_rows. rewrite <- rows_mask. fold (df_significant df).
  intros Hne Hnopace.
  assert (Hne' : df_significant df <> [])
    by (intro E; apply Hne; now rewrite E).
  unfold best_marks.
  destruct (df_significant df) as [|x s] eqn:Es; [contradiction|].
  cbn [Pd.empty negb]. rewrite <- Es in *. clear x s Es.
  destruct (idxmax_total (fun r : Row => Distancia_km r) Hne') as (i & Ei).
  rewrite Ei. cbn [bind].
  destruct (idxmax_greatest _ _ Ei) as (r1 & Hr1 & _).
  destruct (loc_total _ _ _ Hr1) as (r1' & E1). rewrite E1. cbn [bind].
  rewrite mask_nil; [reflexivity|].
  intros [l row] Hin. cbn [snd]. apply gt_false_iff. apply Hnopace.
  apply in_rows. eauto.
Qed.

(** The page for a feed that is not empty, from the frame of its runs. *)
Lemma layout_frame (activities : list Activity) (df : Pd.Frame Row) :
  activities <> [] ->
  process_activities activities = Ok df ->
  (df = [] -> layout activities = Ok St_info) /\
  (df <> [] -> avg_pace_seconds df = None ->
   layout activities
   = Raise (ValueError "cannot convert float NaN to integer")) /\
  (forall avg e,
      df <> [] -> avg_pace_seconds df = Some avg ->
      best_marks df = Raise e -> layout activities = Raise e) /\
  (forall avg marks,
      df <> [] -> avg_pace_seconds df = Some avg ->
      best_marks df = Ok marks ->
      exists page,
        layout activities = Ok (St_analysis page) /\
        carreras page = List.length df /\
        Distancia_Total page = total_km df /\
        Desnivel_Total page = total_elevation df /\
        Tiempo_Total page
        = (format_d (Qfloor (total_time_min df) / 60)
           ++ "h " ++ format_d (Qfloor (total_time_min df) mod 60)
           ++ "min")%string /\
        Ritmo_Promedio page
        = (format_d (Qfloor avg / 60) ++ ":"
           ++ format_02d (Qfloor avg mod 60) ++ " min/km")%string /\
        Mejores_Marcas page = marks).
Proof.
  intros Hne Hdf. unfold layout.
  destruct activities as [|a0 l]; [contradiction|].
  rewrite Hdf. cbn [bind]. split; [|split; [|split]].
  - intros ->. reflexivity.
  - intros Hdfne Havg. destruct df as [|x df']; [contradiction|].
    cbn [Pd.empty]. rewrite horas_minutos_ok. cbn [bind].
    rewrite Havg. reflexivity.
  - intros avg e Hdfne Havg Hbm. destruct df as [|x df']; [contradiction|].
    cbn [Pd.empty]. rewrite horas_minutos_ok. cbn [bind].
    rewrite Havg, avg_pace_min_sec_ok. cbn [bind]. rewrite Hbm. reflexivity.
  - intros avg marks Hdfne Havg Hbm.
    destruct df as [|x df']; [contradiction|].
    cbn [Pd.empty]. rewrite horas_minutos_ok. cbn [bind].
    rewrite Havg, avg_pace_min_sec_ok. cbn [bind]. rewrite Hbm. cbn [bind].
    eexists. split; [reflexivity|]. cbn. repeat split; reflexivity.
Qed.

(** The frame against the runs: paces and distances. *)
Lemma frame_of_runs (activities : list Activity) :
  exists df,
    process_activities activities = Ok df /\
    List.length df = List.length (runs_of activities) /\
    (forall row, In row (Pd.rows df) ->
       exists act, In act (runs_of activities) /\
                   Ritmo_seg_km row = spec_ritmo_seg_km act /\
                   Distancia_km row = spec_distancia_km act) /\
    (forall act, In act (runs_of activities) ->
       exists row, In row (Pd.rows df) /\
                   Ritmo_seg_km row = spec_ritmo_seg_km act /\
                   Distancia_km row = spec_distancia_km act).
Proof.
  destruct (process_activities_runs activities)
    as (df & runs & Hdf & Hperm & _ & Hrows).
  exists df. split; [exact Hdf|]. split; [|split].
  - rewrite <- (length_rows df). rewrite <- (Forall2_length Hrows).
    now apply Permutation_length.
  - intros row Hin.
    destruct (Forall2_in_right row Hrows Hin) as (act & Hact & _ & Hrun).
    exists act. split; [now apply (Permutation_in _ Hperm)|].
    rewrite Hrun. split; reflexivity.
  - intros act Hin. apply (Permutation_in _ (Permutation_sym Hperm)) in Hin.
    destruct (Forall2_in_left act Hrows Hin) as (row & Hrow & _ & Hrun).
    exists row. split; [exact Hrow|]. rewrite Hrun. split; reflexivity.
Qed.

Lemma avg_pace_seconds_none_iff (df : Pd.Frame Row) :
  avg_pace_seconds df = None <->
  forall row, In row (Pd.rows df) -> Ritmo_seg_km row <= 0.
Proof.
  unfold avg_pace_seconds. split.
  - intros H row Hin. apply gt_false_iff.
    destruct (gt (Ritmo_seg_km row) 0) eqn:E; [|reflexivity].
    apply in_rows in Hin. destruct Hin as (l & Hin).
    assert (Hm : In (l, row)
                    (Pd.mask (fun r : Row => gt (Ritmo_seg_km r) 0) df))
      by (apply in_mask; split; assumption).
    destruct (Pd.mask (fun r : Row => gt (Ritmo_seg_km r) 0) df);
      [contradiction|discriminate H].
  - intro H. rewrite mask_nil; [reflexivity|].
    intros [l row] Hin. cbn [snd]. apply gt_false_iff. apply H.
    apply in_rows. eauto.
Qed.

Lemma all_or_some {A} (p : A -> bool) (l : list A) :
  (forall x, In x l -> p x = false) \/ (exists x, In x l /\ p x = true).
Proof.
  induction l as [|a l IH].
  - left. intros x [].
  - destruct (p a) eqn:E.
    + right. exists a. split; [now left|exact E].
    + destruct IH as [IH|(x & Hx & Hp)].
      * left. intros x [<-|Hx]; [exact E|now apply IH].
      * right. exists x. split; [now right|exact Hp].
Qed.

(** The five ways the page can go for a feed that is not empty. *)
Lemma layout_cases (activities : list Activity) :
  activities <> [] ->
  (runs_of activities = [] /\ layout activities = Ok St_info) \/
  (runs_of activities <> [] /\
   (forall act, In act (runs_of activities) -> spec_ritmo_seg_km act <= 0) /\
   layout activities
   = Raise (ValueError "cannot convert float NaN to integer")) \/
  ((exists act, In act (runs_of activities) /\ 0 < spec_ritmo_seg_km act) /\
   (forall act, In act (runs_of activities) -> spec_distancia_km act < 1) /\
   exists page,
     layout activities = Ok (St_analysis page) /\
     carreras page = List.length (runs_of activities) /\
     Mejores_Marcas page = None) \/
  ((exists act, In act (runs_of activities) /\ 0 < spec_ritmo_seg_km act) /\
   (exists act, In act (runs_of activities) /\ 1 <= spec_distancia_km act) /\
   (forall act, In act (runs_of activities) -> 1 <= spec_distancia_km act ->
                spec_ritmo_seg_km act <= 0) /\
   layout activities
   = Raise (ValueError "attempt to get argmin of an empty sequence")) \/
  ((exists act, In act (runs_of activities) /\
                1 <= spec_distancia_km act /\ 0 < spec_ritmo_seg_km act) /\
   exists page bm,
     layout activities = Ok (St_analysis page) /\
     carreras page = List.length (runs_of activities) /\
     Mejores_Marcas page = Some bm).
Proof.
  intro Hne.
  destruct (frame_of_runs activities) as (df & Hdf & Hlen & Hrow & Hact).
  destruct (layout_frame Hne Hdf) as (Hinfo & Hnan & Hraise & Hok).
  destruct (runs_of activities) as [|a0 runs0] eqn:Eruns.
  { left. split; [reflexivity|]. apply Hinfo.
    destruct df; [reflexivity|discriminate Hlen]. }
  rewrite <- Eruns in *. right.
  assert (Hdfne : df <> []) by (intros ->; rewrite Eruns in Hlen; discriminate).
  assert (Hrunsne : runs_of activities <> [])
    by (rewrite Eruns; discriminate).
  clear a0 runs0 Eruns.
  destruct (all_or_some (fun r : Row => gt (Ritmo_seg_km r) 0) (Pd.rows df))
    as [Hnone|(row & Hrowin & Hpos)].
  { left. split; [exact Hrunsne|]. split.
    - intros act Hin. destruct (Hact act Hin) as (row & Hr & <- & _).
      apply gt_false_iff. now apply Hnone.
    - apply Hnan; [exact Hdfne|]. apply avg_pace_seconds_none_iff.
      intros row Hr. apply gt_false_iff. now apply Hnone. }
  right. apply gt_true_iff in Hpos.
  assert (Hpace : exists act, In act (runs_of activities) /\
                              0 < spec_ritmo_seg_km act).
  { destruct (Hrow row Hrowin) as (act & Hin & E & _).
    exists act. split; [exact Hin|]. now rewrite <- E. }
  destruct (avg_pace_seconds df) as [avg|] eqn:Eavg.
  2:{ exfalso. apply (Qlt_not_le _ _ Hpos).
      now apply (proj1 (avg_pace_seconds_none_iff df) Eavg). }
  destruct (significant_rows df) as [|s0 sig0] eqn:Esig.
  { left. split; [exact Hpace|]. split.
    - intros act Hin. destruct (Hact act Hin) as (r & Hr & _ & <-).
      apply Qnot_le_lt. intro Hge.
      assert (Hs : In r (significant_rows df))
        by (apply in_significant_rows; split; assumption).
      rewrite Esig in Hs. contradiction.
    - destruct (Hok avg None Hdfne eq_refl (best_marks_none df Esig))
        as (page & Hpage & Hcar & _ & _ & _ & _ & Hmarks).
      exists page. split; [exact Hpage|]. split; [congruence|exact Hmarks]. }
  right.
  assert (Hsigne : significant_rows df <> [])
    by (rewrite Esig; discriminate).
  assert (Hbig : exists act, In act (runs_of activities) /\
                             1 <= spec_distancia_km act).
  { assert (Hs : In s0 (significant_rows df)) by (rewrite Esig; now left).
    apply in_significant_rows in Hs. destruct Hs as [Hs Hge].
    destruct (Hrow s0 Hs) as (act & Hin & _ & E).
    exists act. split; [exact Hin|]. now rewrite <- E. }
  destruct (all_or_some (fun r : Row => gt (Ritmo_seg_km r) 0)
                        (significant_rows df))
    as [Hnone|(r & Hrin & Hrpos)].
  - left. split; [exact Hpace|]. split; [exact Hbig|]. split.
    + intros act Hin Hge. destruct (Hact act Hin) as (r & Hr & E1 & E2).
      rewrite <- E1. apply gt_false_iff. apply Hnone.
      apply in_significant_rows. split; [exact Hr|]. now rewrite E2.
    + apply (Hraise avg _ Hdfne eq_refl). apply best_marks_raises.
      * exact Hsigne.
      * intros r Hr. apply gt_false_iff. now apply Hnone.
  - right. apply gt_true_iff in Hrpos. split.
    + pose proof Hrin as Hrin'. apply in_significant_rows in Hrin'.
      destruct Hrin' as [Hr Hge].
      destruct (Hrow r Hr) as (act & Hin & E1 & E2).
      exists act. split; [exact Hin|]. rewrite <- E1, <- E2. split; assumption.
    + destruct (best_marks_some df r Hrin Hrpos) as (bm & Hbm).
      destruct (Hok avg (Some bm) Hdfne eq_refl Hbm)
        as (page & Hpage & Hcar & _ & _ & _ & _ & Hmarks).
      exists page, bm. split; [exact Hpage|].
      split; [congruence|exact Hmarks].
Qed.

Lemma runs_of_nil_iff (activities : list Activity) :
  runs_of activities = [] <->
  forall act, In act activities -> type act <> "Run"%string.
Proof.
  unfold runs_of. split.
  - intros E act Hin Htype.
    assert (H : In act (filter is_run activities)).
    { apply filter_In. split; [exact Hin|]. now apply is_run_true_iff. }
    rewrite E in H. contradiction.
  - intro H. induction activities as [|a l IH]; [reflexivity|].
    cbn. destruct (is_run a) eqn:E.
    + apply is_run_true_iff in E. exfalso.
      apply (H a (or_introl eq_refl) E).
    + apply IH. intros act Hin. apply H. now right.
Qed.

Lemma fst_main : fst main = layout (fst get_strava_activities).
Proof. unfold main. destruct get_strava_activities. reflexivity. Qed.

(** X6.  The page is the warning that no activity could be loaded exactly
    when the interaction with the API raised or returned an empty list:
    the page does not tell a failed fetch from an athlete without
    activities. *)
Theorem X6_warning_iff_nothing_fetched :
  fst main = Ok St_warning <->
  (exists e, api_interaction = Raise e) \/ api_interaction = Ok [].
Proof.
  rewrite fst_main. unfold get_strava_activities.
  destruct api_interaction as [activities|e]; cbn [bind try_except fst].
  - split.
    + intro H. right. destruct activities as [|a l]; [reflexivity|].
      exfalso.
      destruct (@layout_cases (a :: l) ltac:(discriminate))
        as [[_ E]|[(_ & _ & E)|[(_ & _ & p & E & _)|[(_ & _ & _ & E)
           |(_ & p & bm & E & _)]]]];
        rewrite E in H; discriminate H.
    + intros [(e & He)|He]; [discriminate He|].
      injection He as ->. reflexivity.
  - split; [|reflexivity]. intros _. left. now exists e.
Qed.

(** X7.  For a feed that is not empty, the page is the note that there is
    no run exactly when no activity has the type ['Run']. *)
Theorem X7_info_iff_no_run (activities : list Activity) :
  activities <> [] ->
  (layout activities = Ok St_info <->
   forall act, In act activities -> type act <> "Run"%string).
Proof.
  intro Hne. rewrite <- runs_of_nil_iff.
  destruct (layout_cases Hne)
    as [[Hr E]|[(Hr & _ & E)|[((a & Ha & _) & _ & p & E & _)
       |[((a & Ha & _) & _ & _ & E)|((a & Ha & _) & p & bm & E & _)]]]];
    rewrite E; split; intro H;
    try reflexivity; try exact Hr; try discriminate H;
    try contradiction; try (rewrite H in Ha; contradiction).
Qed.

(** X8.  When the feed has runs but none of them has a pace (each lacks a
    moving time or has a rounded distance of zero), the average pace is
    NaN and the page raises [ValueError] when it converts it to whole
    minutes: no analysis is shown. *)
Theorem X8_no_pace_raises (activities : list Activity) :
  runs_of activities <> [] ->
  (forall act, In act (runs_of activities) -> spec_ritmo_seg_km act == 0) ->
  layout activities
  = Raise (ValueError "cannot convert float NaN to integer").
Proof.
  intros Hruns Hnopace.
  assert (Hne : activities <> []) by (intros ->; now apply Hruns).
  destruct (layout_cases Hne)
    as [[Hr _]|[(_ & _ & E)|[((a & Ha & Hp) & _)
       |[((a & Ha & Hp) & _)|((a & Ha & _ & Hp) & _)]]]];
    [contradiction|exact E| | |];
    exfalso; rewrite (Hnopace a Ha) in Hp; apply (Qlt_irrefl 0 Hp).
Qed.

(** X9.  When some run has a pace and some run is of at least 1 km, but no
    run of at least 1 km has a pace, the fastest run is sought in an empty
    series and the page raises [ValueError]. *)
Theorem X9_no_fast_run_raises (activities : list Activity) :
  (exists act, In act (runs_of activities) /\ 0 < spec_ritmo_seg_km act) ->
  (exists act, In act (runs_of activities) /\ 1 <= spec_distancia_km act) ->
  (forall act, In act (runs_of activities) -> 1 <= spec_distancia_km act ->
               spec_ritmo_seg_km act == 0) ->
  layout activities
  = Raise (ValueError "attempt to get argmin of an empty sequence").
Proof.
  intros (a & Ha & Hpa) (b & Hb & Hgb) Hnofast.
  assert (Hne : activities <> []) by (intros ->; contradiction).
  destruct (layout_cases Hne)
    as [[Hr _]|[(_ & Hnone & _)|[(_ & Hsmall & _)
       |[(_ & _ & _ & E)|((c & Hc & Hgc & Hpc) & _)]]]].
  - rewrite Hr in Ha. contradiction.
  - exfalso. apply (Qlt_not_le _ _ Hpa). now apply Hnone.
  - exfalso. apply (Qlt_not_le _ _ (Hsmall b Hb) Hgb).
  - exact E.
  - exfalso. rewrite (Hnofast c Hc Hgc) in Hpc. apply (Qlt_irrefl 0 Hpc).
Qed.

(** X10.  The analysis is shown when some run has a pace and, if any run is
    of at least 1 km, some run of at least 1 km has a pace.  It then
    reports as many runs as the feed has activities of type ['Run'], and
    it has best marks exactly when some run is of at least 1 km. *)
Theorem X10_analysis_shown (activities : list Activity) :
  (exists act, In act (runs_of activities) /\ 0 < spec_ritmo_seg_km act) ->
  ((exists act, In act (runs_of activities) /\ 1 <= spec_distancia_km act) ->
   exists act, In act (runs_of activities) /\
               1 <= spec_distancia_km act /\ 0 < spec_ritmo_seg_km act) ->
  exists page,
    layout activities = Ok (St_analysis page) /\
    carreras page = List.length (runs_of activities) /\
    (Mejores_Marcas page = None <->
     forall act, In act (runs_of activities) -> spec_distancia_km act < 1).
Proof.
  intros (a & Ha & Hpa) Hfast.
  assert (Hne : activities <> []) by (intros ->; contradiction).
  destruct (layout_cases Hne)
    as [[Hr _]|[(_ & Hnone & _)|[(_ & Hsmall & p & E & Hc & Hm)
       |[(_ & Hbig & Hnofast & _)|((c & Hc & Hgc & Hpc) & p & bm & E & Hn & Hm)]]]].
  - rewrite Hr in Ha. contradiction.
  - exfalso. apply (Qlt_not_le _ _ Hpa). now apply Hnone.
  - exists p. split; [exact E|]. split; [exact Hc|].
    split; [intros _; exact Hsmall|intros _; exact Hm].
  - exfalso. destruct (Hfast Hbig) as (c & Hc & Hgc & Hpc).
    apply (Qlt_not_le _ _ Hpc). now apply Hnofast.
  - exists p. split; [exact E|]. split; [exact Hn|]. rewrite Hm. split.
    + discriminate.
    + intro Hsmall. exfalso. apply (Qlt_not_le _ _ (Hsmall c Hc) Hgc).
Qed.


(* ================================================================ *)
(** ** Which row wins a tie *)

(** [arg_best] returns the first entry that no entry beats: the entries
    before it are strictly worse, the entries after it are not better.
    [W a b] reads "a is strictly worse than b", [N a b] "a is not better
    than b". *)
Lemma arg_best_first (better : Q -> Q -> bool) (W N : Q -> Q -> Prop)
      (best : nat * Q) (s : Pd.Series) :
  (forall a b, better a b = true -> W b a) ->
  (forall a b, better a b = false -> N a b) ->
  (forall a b c, W a b -> W b c -> W a c) ->
  (forall a b c, N a b -> W b c -> W a c) ->
  exists pre post,
    best :: s = pre ++ Pd.arg_best better best s :: post /\
    (forall y, In y pre -> W (snd y) (snd (Pd.arg_best better best s))) /\
    (forall y, In y post -> N (snd y) (snd (Pd.arg_best better best s))).
Proof.
  intros Hb1 Hb2 T1 T2. revert best.
  induction s as [|x s IH]; intro best; cbn [Pd.arg_best].
  - exists [], []. split; [reflexivity|]. split; intros y [].
  - destruct (better (snd x) (snd best)) eqn:E.
    + destruct (IH x) as (pre & post & Eq & Hpre & Hpost).
      exists (best :: pre), post. split; [cbn; f_equal; exact Eq|].
      split; [|exact Hpost].
      intros y [<-|Hy]; [|now apply Hpre].
      apply Hb1 in E. destruct pre as [|x' pre'].
      * cbn in Eq. injection Eq as Eq _.
        exact (eq_ind x (fun z => W (snd best) (snd z)) E _ Eq).
      * cbn in Eq. injection Eq as Eq _. subst x'.
        eapply T1; [exact E|]. apply Hpre. now left.
    + destruct (IH best) as (pre & post & Eq & Hpre & Hpost).
      apply Hb2 in E. destruct pre as [|b' pre'].
      * cbn in Eq. injection Eq as Eq1 Eq2.
        exists [], (x :: post).
        split; [cbn; f_equal; [exact Eq1|now f_equal]|].
        split; [intros y []|].
        intros y [<-|Hy]; [|now apply Hpost].
        exact (eq_ind best (fun z => N (snd x) (snd z)) E _ Eq1).
      * cbn in Eq. injection Eq as Eq1 Eq2. subst b'.
        exists (best :: x :: pre'), post.
        split; [cbn; do 2 f_equal; exact Eq2|]. split; [|exact Hpost].
        intros y [<-|[<-|Hy]].
        -- apply Hpre. now left.
        -- eapply T2; [exact E|]. apply Hpre. now left.
        -- apply Hpre. now right.
Qed.

Lemma column_split {R} (col : R -> Q) (df : Pd.Frame R)
      (pre post : Pd.Series) (i : nat) (v : Q) :
  Pd.column col df = pre ++ (i, v) :: post ->
  exists pre' r post',
    df = pre' ++ (i, r) :: post' /\ v = col r /\
    pre = Pd.column col pre' /\ post = Pd.column col post'.
Proof.
  unfold Pd.column, Pd.assign. intro E.
  apply map_eq_app in E. destruct E as (pre' & rest & -> & <- & E).
  apply map_eq_cons in E. destruct E as ([j r] & post' & -> & E & <-).
  cbn in E. injection E as -> <-.
  exists pre', r, post'. repeat split.
Qed.

(** [idxmax]: the rows before the chosen one have a strictly smaller value. *)
Lemma idxmax_first {R} (col : R -> Q) (df : Pd.Frame R) (i : nat) :
  Pd.idxmax (Pd.column col df) = Ok i ->
  exists pre r post,
    df = pre ++ (i, r) :: post /\
    forall jr, In jr pre -> col (snd jr) < col r.
Proof.
  unfold Pd.idxmax. destruct (Pd.column col df) as [|x s] eqn:E;
    [discriminate|].
  intro H. injection H as <-.
  destruct (@arg_best_first Py.gt Qlt Qle x s) as (pre & post & Eq & Hpre & _).
  - intros a b Hab. now apply gt_true_iff.
  - intros a b Hab. now apply gt_false_iff.
  - intros a b c. apply Qlt_trans.
  - intros a b c. apply Qle_lt_trans.
  - rewrite <- E in Eq. destruct (Pd.arg_best gt x s) as [i v].
    cbn [fst snd] in *.
    apply column_split in Eq.
    destruct Eq as (pre' & r & post' & -> & -> & -> & _).
    exists pre', r, post'. split; [reflexivity|].
    intros [j r'] Hj. apply (Hpre (j, col r')). apply in_column. eauto.
Qed.

Lemma idxmin_first {R} (col : R -> Q) (df : Pd.Frame R) (i : nat) :
  Pd.idxmin (Pd.column col df) = Ok i ->
  exists pre r post,
    df = pre ++ (i, r) :: post /\
    forall jr, In jr pre -> col r < col (snd jr).
Proof.
  unfold Pd.idxmin. destruct (Pd.column col df) as [|x s] eqn:E;
    [discriminate|].
  intro H. injection H as <-.
  destruct (@arg_best_first (fun a b => Py.gt b a)
              (fun a b => b < a) (fun a b => b <= a) x s)
    as (pre & post & Eq & Hpre & _).
  - intros a b Hab. now apply gt_true_iff.
  - intros a b Hab. now apply gt_false_iff.
  - intros a b c Hab Hbc. eapply Qlt_trans; eassumption.
  - intros a b c Hab Hbc. eapply Qlt_le_trans; eassumption.
  - rewrite <- E in Eq.
    destruct (Pd.arg_best (fun a b => gt b a) x s) as [i v].
    cbn [fst snd] in *.
    apply column_split in Eq.
    destruct Eq as (pre' & r & post' & -> & -> & -> & _).
    exists pre', r, post'. split; [reflexivity|].
    intros [j r'] Hj. apply (Hpre (j, col r')). apply in_column. eauto.
Qed.

(** A split of the kept rows comes from a split of all the rows. *)
Lemma mask_split {R} (p : R -> bool) (df pre post : Pd.Frame R)
      (x : nat * R) :
  Pd.mask p df = pre ++ x :: post ->
  exists pre' post',
    df = pre' ++ x :: post' /\ Pd.mask p pre' = pre.
Proof.
  unfold Pd.mask. revert pre. induction df as [|y df IH]; intros pre E.
  - destruct pre; discriminate E.
  - cbn in E. destruct (p (snd y)) eqn:Ep.
    + destruct pre as [|z pre].
      * cbn in E. injection E as -> E.
        exists [], df. split; reflexivity.
      * cbn in E. injection E as -> E.
        destruct (IH pre E) as (pre' & post' & -> & <-).
        exists (z :: pre'), post'. split; [reflexivity|].
        cbn. now rewrite Ep.
    + destruct (IH pre E) as (pre' & post' & -> & <-).
      exists (y :: pre'), post'. split; [reflexivity|].
      cbn. now rewrite Ep.
Qed.

Lemma rows_split {R} (pre post : Pd.Frame R) (x : nat * R) :
  Pd.rows (pre ++ x :: post) = Pd.rows pre ++ snd x :: Pd.rows post.
Proof. unfold Pd.rows. now rewrite map_app. Qed.

Lemma StronglySorted_before {A} (P : A -> A -> Prop) (pre post : list A)
      (x : A) :
  StronglySorted P (pre ++ x :: post) -> forall y, In y pre -> P y x.
Proof.
  induction pre as [|a pre IH]; cbn; intros Hs y Hy; [contradiction|].
  apply StronglySorted_inv in Hs. destruct Hs as [Hs Hall].
  destruct Hy as [<-|Hy]; [|now apply IH].
  rewrite Forall_forall in Hall. apply Hall. apply in_or_app. right. now left.
Qed.

(** On a frame with distinct labels, each best mark is the first row of the
    table, among the rows of at least 1 km, that attains the extremum. *)
Lemma best_marks_first (df : Pd.Frame Row) (bm : BestMarks) :
  NoDup (Pd.labels df) ->
  best_marks df = Ok (Some bm) ->
  (exists pre post,
      Pd.rows df = pre ++ longest_run bm :: post /\
      forall row, In row pre ->
                  Distancia_km row < Distancia_km (longest_run bm)) /\
  (exists pre post,
      Pd.rows df = pre ++ fastest_run bm :: post /\
      forall row, In row pre -> 1 <= Distancia_km row ->
                  0 < Ritmo_seg_km row ->
                  Ritmo_seg_km (fastest_run bm) < Ritmo_seg_km row) /\
  (exists pre post,
      Pd.rows df = pre ++ most_elevation_run bm :: post /\
      forall row, In row pre -> 1 <= Distancia_km row ->
                  Desnivel_m row < Desnivel_m (most_elevation_run bm)).
Proof.
  intros Hnd H. apply best_marks_inv in H.
  destruct H as (i & j & k & Ei & E1 & Ej & E2 & Ek & E3).
  assert (Hnd' : NoDup (Pd.labels (df_significant df)))
    by now apply labels_mask_nodup.
  split; [|split].
  - apply idxmax_first in Ei. destruct Ei as (pre & r & post & Es & Hpre).
    assert (Hin : In (i, r) (df_significant df))
      by (rewrite Es; apply in_or_app; right; now left).
    rewrite (loc_unique _ _ _ Hnd' Hin) in E1. injection E1 as <-.
    apply in_mask in Hin. destruct Hin as [_ Hge]. cbn [snd] in Hge.
    apply ge_true_iff in Hge.
    unfold df_significant in Es. apply mask_split in Es.
    destruct Es as (pre' & post' & -> & Hmask).
    exists (Pd.rows pre'), (Pd.rows post'). split; [apply rows_split|].
    intros row Hrow. apply in_rows in Hrow. destruct Hrow as (l & Hrow).
    destruct (Qlt_le_dec (Distancia_km row) 1) as [Hlt|Hle].
    + eapply Qlt_le_trans; eassumption.
    + apply (Hpre (l, row)). rewrite <- Hmask. apply in_mask.
      split; [exact Hrow|]. now apply ge_true_iff.
  - apply idxmin_first in Ej. destruct Ej as (pre & r & post & Es & Hpre).
    assert (Hin : In (j, r)
                     (Pd.mask (fun r : Row => gt (Ritmo_seg_km r) 0)
                              (df_significant df)))
      by (rewrite Es; apply in_or_app; right; now left).
    apply in_mask in Hin. destruct Hin as [Hin _].
    rewrite (loc_unique _ _ _ Hnd' Hin) in E2. injection E2 as <-.
    apply mask_split in Es. destruct Es as (pre1 & post1 & Es & Hmask1).
    unfold df_significant in Es. apply mask_split in Es.
    destruct Es as (pre2 & post2 & -> & Hmask2).
    exists (Pd.rows pre2), (Pd.rows post2). split; [apply rows_split|].
    intros row Hrow Hge Hpos. apply in_rows in Hrow.
    destruct Hrow as (l & Hrow).
    apply (Hpre (l, row)). rewrite <- Hmask1. apply in_mask.
    split; [|now apply gt_true_iff].
    rewrite <- Hmask2. apply in_mask. split; [exact Hrow|].
    now apply ge_true_iff.
  - apply idxmax_first in Ek. destruct Ek as (pre & r & post & Es & Hpre).
    assert (Hin : In (k, r) (df_significant df))
      by (rewrite Es; apply in_or_app; right; now left).
    rewrite (loc_unique _ _ _ Hnd' Hin) in E3. injection E3 as <-.
    unfold df_significant in Es. apply mask_split in Es.
    destruct Es as (pre' & post' & -> & Hmask).
    exists (Pd.rows pre'), (Pd.rows post'). split; [apply rows_split|].
    intros row Hrow Hge. apply in_rows in Hrow. destruct Hrow as (l & Hrow).
    apply (Hpre (l, row)). rewrite <- Hmask. apply in_mask.
    split; [exact Hrow|]. now apply ge_true_iff.
Qed.

(** X12.  Although the best marks only look at runs of at least 1 km, the
    longest run shown is the longest of the whole table: no row of the
    frame has a larger distance. *)
Theorem X12_longest_run_overall (activities : list Activity) :
  exists df,
    process_activities activities = Ok df /\
    forall bm, best_marks df = Ok (Some bm) ->
      In (longest_run bm) (Pd.rows df) /\
      forall row, In row (Pd.rows df) ->
                  Distancia_km row <= Distancia_km (longest_run bm).
Proof.
  destruct (process_activities_shape activities)
    as (df & Hdf & Hlabels & _ & _).
  exists df. split; [exact Hdf|]. intros bm Hbm.
  assert (Hnd : NoDup (Pd.labels df)) by (rewrite Hlabels; apply seq_NoDup).
  destruct (@best_marks_extrema df bm Hnd Hbm) as ((Hin & Hmax) & _).
  apply in_significant_rows in Hin. destruct Hin as [Hin Hge].
  split; [exact Hin|]. intros row Hrow.
  destruct (Qlt_le_dec (Distancia_km row) 1) as [Hlt|Hle].
  - apply Qlt_le_weak. eapply Qlt_le_trans; eassumption.
  - apply Hmax. apply in_significant_rows. split; assumption.
Qed.

(** X13.  Ties go to the most recent run.  Each best mark is the first row
    of the table to attain its extremum: every row listed before the
    longest run is strictly shorter, every row of at least 1 km listed
    before the run with most elevation has strictly less elevation, and
    every row of at least 1 km with a pace listed before the fastest run is
    strictly slower; and the rows listed before a row are not older than
    it. *)
Theorem X13_ties_go_to_first_row (activities : list Activity) :
  exists df,
    process_activities activities = Ok df /\
    forall bm, best_marks df = Ok (Some bm) ->
      (exists pre post,
          Pd.rows df = pre ++ longest_run bm :: post /\
          forall row, In row pre ->
            (Fecha (longest_run bm) <= Fecha row)%Z /\
            Distancia_km row < Distancia_km (longest_run bm)) /\
      (exists pre post,
          Pd.rows df = pre ++ fastest_run bm :: post /\
          forall row, In row pre ->
            (Fecha (fastest_run bm) <= Fecha row)%Z /\
            (1 <= Distancia_km row -> 0 < Ritmo_seg_km row ->
             Ritmo_seg_km (fastest_run bm) < Ritmo_seg_km row)) /\
      (exists pre post,
          Pd.rows df = pre ++ most_elevation_run bm :: post /\
          forall row, In row pre ->
            (Fecha (most_elevation_run bm) <= Fecha row)%Z /\
            (1 <= Distancia_km row ->
             Desnivel_m row < Desnivel_m (most_elevation_run bm))).
Proof.
  destruct (process_activities_shape activities)
    as (df & Hdf & Hlabels & Hsorted & _).
  exists df. split; [exact Hdf|]. intros bm Hbm.
  assert (Hnd : NoDup (Pd.labels df)) by (rewrite Hlabels; apply seq_NoDup).
  destruct (@best_marks_first df bm Hnd Hbm)
    as ((p1 & q1 & E1 & H1) & (p2 & q2 & E2 & H2) & (p3 & q3 & E3 & H3)).
  split; [|split].
  - exists p1, q1. split; [exact E1|]. intros row Hrow. split.
    + rewrite E1 in Hsorted.
      apply (StronglySorted_before _ _ _ Hsorted row Hrow).
    + now apply H1.
  - exists p2, q2. split; [exact E2|]. intros row Hrow. split.
    + rewrite E2 in Hsorted.
      apply (StronglySorted_before _ _ _ Hsorted row Hrow).
    + now apply H2.
  - exists p3, q3. split; [exact E3|]. intros row Hrow. split.
    + rewrite E3 in Hsorted.
      apply (StronglySorted_before _ _ _ Hsorted row Hrow).
    + now apply H3.
Qed.

(* ================================================================ *)
(** ** The charts *)

Lemma insert_asc_perm {V} (x : Timestamp * V) (l : list (Timestamp * V)) :
  Permutation (insert_asc x l) (x :: l).
Proof.
  induction l as [|y l IH]; cbn.
  - apply Permutation_refl.
  - destruct (fst x <=? fst y)%Z.
    + apply Permutation_refl.
    + rewrite IH. apply perm_swap.
Qed.

Lemma sort_index_perm {V} (l : list (Timestamp * V)) :
  Permutation (sort_index l) l.
Proof.
  induction l as [|x l IH]; cbn.
  - apply perm_nil.
  - rewrite insert_asc_perm. now apply perm_skip.
Qed.

Lemma insert_asc_sorted {V} (x : Timestamp * V) (l : list (Timestamp * V)) :
  StronglySorted (fun a b => (fst a <= fst b)%Z) l ->
  StronglySorted (fun a b => (fst a <= fst b)%Z) (insert_asc x l).
Proof.
  unfold Timestamp in *.
  induction 1 as [|y l Hs IH Hy]; cbn.
  - constructor; constructor.
  - destruct (_ <=? _)%Z eqn:E.
    + apply Z.leb_le in E. constructor.
      * now constructor.
      * constructor; [exact E|].
        eapply Forall_impl; [|exact Hy]. cbn. intros.
        unfold Timestamp in *. lia.
    + apply Z.leb_gt in E. constructor; [exact IH|].
      rewrite (insert_asc_perm x l).
      constructor; [unfold Timestamp in *; lia | exact Hy].
Qed.

Lemma sort_index_sorted {V} (l : list (Timestamp * V)) :
  StronglySorted (fun a b => (fst a <= fst b)%Z) (sort_index l).
Proof.
  induction l as [|x l IH]; cbn.
  - constructor.
  - now apply insert_asc_sorted.
Qed.

(** What an analysis page was made of. *)
Lemma layout_analysis_inv (activities : list Activity) (page : Analysis) :
  layout activities = Ok (St_analysis page) ->
  exists df,
    process_activities activities = Ok df /\
    chart_data page
    = sort_index
        (set_index_Fecha (fun r : Row => (Distancia_km r, Desnivel_m r)) df) /\
    pace_data page
    = sort_index (set_index_Fecha (fun r : Row => Ritmo_seg_km r) df).
Proof.
  unfold layout. destruct activities as [|a0 l]; [discriminate|].
  intro H. bind_inv H df Edf. exists df. split; [reflexivity|].
  destruct (Pd.empty df); [discriminate H|].
  bind_inv H hm Ehm. destruct hm as [horas minutos].
  bind_inv H ms Ems. destruct ms as [avg_min avg_sec].
  bind_inv H marks Emarks.
  injection H as <-. split; reflexivity.
Qed.

(** X14.  On the analysis page both charts are drawn oldest first, the
    reverse of the table: their points are ordered by date ascending, and
    they are, up to that order, the (date, distance, elevation) and the
    (date, pace) of every row of the frame, none dropped and none added;
    rows without a pace are charted with pace 0. *)
Theorem X14_charts_oldest_first
        (activities : list Activity) (page : Analysis) :
  layout activities = Ok (St_analysis page) ->
  exists df,
    process_activities activities = Ok df /\
    StronglySorted (fun a b => (fst a <= fst b)%Z) (chart_data page) /\
    Permutation (chart_data page)
      (map (fun r : Row => (Fecha r, (Distancia_km r, Desnivel_m r)))
           (Pd.rows df)) /\
    StronglySorted (fun a b => (fst a <= fst b)%Z) (pace_data page) /\
    Permutation (pace_data page)
      (map (fun r : Row => (Fecha r, Ritmo_seg_km r)) (Pd.rows df)).
Proof.
  intro H. apply layout_analysis_inv in H.
  destruct H as (df & Hdf & -> & ->).
  exists df. split; [exact Hdf|].
  split; [apply sort_index_sorted|]. split; [apply sort_index_perm|].
  split; [apply sort_index_sorted|apply sort_index_perm].
Qed.

(* ================================================================ *)
(** ** The average pace *)






(* ================================================================ *)
(** ** The shape of the pace label *)

Lemma string_length_append (a b : string) :
  String.length (a ++ b) = (String.length a + String.length b)%nat.
Proof.
  induction a as [|c a IH]; cbn; [reflexivity|]. now rewrite IH.
Qed.

Lemma string_of_uint_nonempty (d : Decimal.uint) :
  (1 <= String.length (NilZero.string_of_uint d))%nat.
Proof. destruct d; cbn; lia. Qed.

Lemma format_02d_length (n : Z) : (2 <= String.length (format_02d n))%nat.
Proof.
  unfold format_02d.
  assert (H : (1 <= String.length (NilZero.string_of_int (Z.to_int n)))%nat).
  { destruct (Z.to_int n) as [d|d]; cbn [NilZero.string_of_int].
    - apply string_of_uint_nonempty.
    - cbn. lia. }
  destruct (String.length (NilZero.string_of_int (Z.to_int n)) <? 2)%nat eqn:E.
  - cbn. lia.
  - apply Nat.ltb_ge in E. exact E.
Qed.

Lemma format_02d_two_digits (n : Z) :
  (0 <= n < 100)%Z ->
  exists a b,
    format_02d n = String a (String b EmptyString) /\
    is_digit a = true /\ is_digit b = true.
Proof.
  intro Hn.
  assert (Hall : forallb
                   (fun k => match format_02d (Z.of_nat k) with
                             | String a (String b EmptyString) =>
                                 is_digit a && is_digit b
                             | _ => false
                             end) (seq 0 100) = true)
    by (vm_compute; reflexivity).
  rewrite forallb_forall in Hall.
  specialize (Hall (Z.to_nat n)). rewrite Z2Nat.id in Hall by lia.
  assert (Hin : In (Z.to_nat n) (seq 0 100)) by (apply in_seq; lia).
  specialize (Hall Hin).
  destruct (format_02d n) as [|a [|b [|c rest]]]; try discriminate Hall.
  apply andb_prop in Hall. exists a, b. split; [reflexivity|exact Hall].
Qed.

Lemma ritmo_min_km_pos (s : Q) :
  0 < s ->
  ritmo_min_km s
  = Ok (format_02d (Qfloor s / 60) ++ ":" ++ format_02d (Qfloor s mod 60))%string.
Proof.
  intro Hs. unfold ritmo_min_km. apply gt_true_iff in Hs. rewrite Hs.
  rewrite floordiv_ok, mod_ok by (intro E'; discriminate E').
  cbn [bind]. rewrite int_inject_Z, int_mod_60, Qfloor_div_60.
  reflexivity.
Qed.

(** X16.  The label is ["N/A"] exactly when the pace is not strictly
    positive: a row with a pace never shows ["N/A"], and a row without one
    never shows a time. *)
Theorem X16_na_iff_no_pace (s : Q) :
  ritmo_min_km s = Ok "N/A"%string <-> s <= 0.
Proof.
  split; [|apply ritmo_min_km_sentinel].
  intro H. destruct (Qlt_le_dec 0 s) as [Hs|Hs]; [|exact Hs].
  exfalso. rewrite (ritmo_min_km_pos Hs) in H. injection H as H.
  apply (f_equal String.length) in H.
  rewrite !string_length_append in H.
  pose proof (format_02d_length (Qfloor s / 60)).
  pose proof (format_02d_length (Qfloor s mod 60)).
  cbn in H. lia.
Qed.

(** X17.  For a pace under 100 minutes per km the label has the fixed
    shape [MM:SS]: two digits, a colon, two digits. *)
Theorem X17_label_shape (s : Q) :
  0 < s -> s < 6000 ->
  exists m1 m2 s1 s2 : ascii,
    ritmo_min_km s
    = Ok (String m1 (String m2 (String ":" (String s1 (String s2 EmptyString)))))
    /\ is_digit m1 = true /\ is_digit m2 = true
    /\ is_digit s1 = true /\ is_digit s2 = true.
Proof.
  intros Hs Hlt.
  assert (Hf : (0 <= Qfloor s < 6000)%Z).
  { split.
    - change 0%Z with (Qfloor 0). apply Qfloor_resp_le. lra.
    - rewrite Zlt_Qlt. eapply Qle_lt_trans; [apply Qfloor_le|exact Hlt]. }
  destruct (@format_02d_two_digits (Qfloor s / 60))
    as (m1 & m2 & Em & Hm1 & Hm2).
  { split; [apply Z.div_pos; lia|]. apply Z.div_lt_upper_bound; lia. }
  destruct (@format_02d_two_digits (Qfloor s mod 60))
    as (s1 & s2 & Es & Hs1 & Hs2).
  { pose proof (Z.mod_pos_bound (Qfloor s) 60 ltac:(lia)). lia. }
  exists m1, m2, s1, s2.
  rewrite (ritmo_min_km_pos Hs), Em, Es. cbn. auto.
Qed.

(* ================================================================ *)
(** ** The metrics of the analysis page *)

(** X18.  On the analysis page the average pace is a number: it is the
    mean of the strictly positive paces, shown cut to whole seconds as
    minutes and seconds (the seconds between 0 and 59, with two digits);
    the total time is shown as the whole hours and minutes of the summed
    minutes; the distance and elevation metrics are the sums of their
    columns and the number of runs is the number of rows. *)
Theorem X18_page_metrics (activities : list Activity) (page : Analysis) :
  layout activities = Ok (St_analysis page) ->
  exists df avg horas minutos avg_pace_min avg_pace_sec,
    process_activities activities = Ok df /\
    avg_pace_seconds df = Some avg /\
    carreras page = List.length df /\
    Distancia_Total page = total_km df /\
    Desnivel_Total page = total_elevation df /\
    Tiempo_Total page
    = (format_d horas ++ "h " ++ format_d minutos ++ "min")%string /\
    (60 * horas + minutos)%Z = Qfloor (total_time_min df) /\
    (0 <= minutos < 60)%Z /\
    Ritmo_Promedio page
    = (format_d avg_pace_min ++ ":" ++ format_02d avg_pace_sec
       ++ " min/km")%string /\
    (60 * avg_pace_min + avg_pace_sec)%Z = Qfloor avg /\
    (0 <= avg_pace_sec < 60)%Z.
Proof.
  intro H.
  destruct (layout_analysis_inv _ H) as (df & Hdf & _ & _).
  assert (Hne : activities <> []).
  { intros ->. discriminate H. }
  destruct (layout_frame Hne Hdf) as (Hinfo & Hnan & Hraise & Hok).
  assert (Hdfne : df <> []).
  { intros ->. rewrite (Hinfo eq_refl) in H. discriminate H. }
  destruct (avg_pace_seconds df) as [avg|] eqn:Eavg.
  2:{ rewrite (Hnan Hdfne eq_refl) in H. discriminate H. }
  destruct (best_marks df) as [marks|e] eqn:Ebm.
  2:{ rewrite (Hraise avg e Hdfne eq_refl eq_refl) in H. discriminate H. }
  destruct (Hok avg marks Hdfne eq_refl eq_refl)
    as (page' & Hpage & Hcar & Hkm & Hel & Htime & Hpace & _).
  rewrite Hpage in H. injection H as ->.
  exists df, avg, (Qfloor (total_time_min df) / 60)%Z,
    (Qfloor (total_time_min df) mod 60)%Z,
    (Qfloor avg / 60)%Z, (Qfloor avg mod 60)%Z.
  pose proof (Z.div_mod (Qfloor (total_time_min df)) 60 ltac:(lia)).
  pose proof (Z.mod_pos_bound (Qfloor (total_time_min df)) 60 ltac:(lia)).
  pose proof (Z.div_mod (Qfloor avg) 60 ltac:(lia)).
  pose proof (Z.mod_pos_bound (Qfloor avg) 60 ltac:(lia)).
  repeat split; try assumption; try reflexivity; lia.
Qed.

(* ================================================================ *)
(** ** Activities that are not runs *)

Lemma runs_of_idem (activities : list Activity) :
  runs_of (runs_of activities) = runs_of activities.
Proof.
  unfold runs_of. induction activities as [|a l IH]; [reflexivity|].
  cbn. destruct (is_run a) eqn:E; [|exact IH].
  cbn. rewrite E. now rewrite IH.
Qed.

(** X19.  Activities of another type leave no trace in the frame: the
    outcome of [process_activities] on a feed is the outcome on its runs
    alone, whatever the other activities are and wherever they stand in
    the feed. *)
Theorem X19_other_types_ignored (activities : list Activity) :
  process_activities activities = process_activities (runs_of activities).
Proof.
  unfold process_activities. rewrite !loop_ok.
  fold (runs_of activities). fold (runs_of (runs_of activities)).
  now rewrite runs_of_idem.
Qed.

End App.

(* ================================================================== *)
(** ** The script on concrete activities *)

(** The frame of the sample feed: the ride is skipped and the runs come
    newest first. *)
Example feed_frame :
  exists df,
    process_activities Sample.strftime Sample.to_datetime Sample.feed = Ok df /\
    map (fun r : Row => (ID r, Ritmo_min_km r)) (Pd.rows df)
    = [(4, "N/A"); (3, "03:20"); (1, "05:00")]%string%Z /\
    map (fun r : Row => Fecha r) (Pd.rows df)
    = [20240504073000; 20240503073000; 20240501073000]%Z.
Proof.
  eexists. split; [vm_compute; reflexivity|]. split; reflexivity.
Qed.

(** A frame whose only run of at least 1 km has no pace: the minimum is
    taken over an empty series and the panel raises. *)
Example best_marks_without_pace :
  exists df,
    process_activities Sample.strftime Sample.to_datetime
      [Sample.manual_run; Sample.short_run] = Ok df /\
    best_marks df
    = Raise (ValueError "attempt to get argmin of an empty sequence").
Proof.
  eexists. split; [vm_compute; reflexivity|]. reflexivity.
Qed.



Lemma C2_exception_gives_empty_witness :
  Sample.refresh_unauthorized "id" "secret" "refresh"
  = Raise (ClientError "401 Unauthorized") /\
  get_strava_activities "id" "secret" "refresh"
    Sample.refresh_unauthorized (Sample.get_activities Sample.feed)
  = ([], [St_error "Error al conectar con Strava: 401 Unauthorized"]).
Proof.
  split; [reflexivity|].
  apply (@C2_exception_gives_empty "id" "secret" "refresh"
           Sample.refresh_unauthorized (Sample.get_activities Sample.feed)
           (ClientError "401 Unauthorized")).
  left. reflexivity.
Defined.

Lemma C3_only_runs_witness :
  exists df,
    process_activities Sample.strftime Sample.to_datetime [Sample.ride]
    = Ok df /\
    (exists runs,
        Permutation runs
          (filter (fun act => String.eqb (type act) "Run") [Sample.ride]) /\
        Forall2 (shows Sample.strftime Sample.to_datetime) runs (Pd.rows df)) /\
    (Forall (fun act => type act <> "Run"%string) [Sample.ride] ->
     df = Pd.DataFrame [] /\ Pd.empty df = true).
Proof.
  exact (C3_only_runs Sample.strftime Sample.to_datetime [Sample.ride]).
Defined.

Lemma C6_at_most_100_witness :
  (forall access_token n l,
      Sample.get_activities Sample.long_feed access_token (Some n) = Ok l ->
      (List.length l <= n)%nat) /\
  (List.length
     (fst (get_strava_activities "id" "secret" "refresh"
             Sample.refresh_access_token
             (Sample.get_activities Sample.long_feed))) <= 100)%nat.
Proof.
  assert (H : forall (access_token : string) n l,
             Sample.get_activities Sample.long_feed access_token (Some n)
             = Ok l ->
             (List.length l <= n)%nat).
  { intros tok n l E. injection E as <-. apply firstn_le_length. }
  split; [exact H|].
  apply (@C6_at_most_100 "id" "secret" "refresh"
           Sample.refresh_access_token
           (Sample.get_activities Sample.long_feed) H).
Defined.




Lemma C9_newest_first_witness :
  exists df,
    process_activities Sample.strftime Sample.to_datetime Sample.feed = Ok df /\
    StronglySorted (fun r1 r2 : Row => (Fecha r2 <= Fecha r1)%Z) (Pd.rows df) /\
    Pd.labels df = seq 0 (List.length df).
Proof.
  exact (C9_newest_first Sample.strftime Sample.to_datetime Sample.feed).
Defined.

Lemma C10_best_marks_at_least_1km_witness :
  exists df bm,
    process_activities Sample.strftime Sample.to_datetime Sample.feed = Ok df /\
    best_marks df = Ok (Some bm) /\
    1 <= Distancia_km (longest_run bm) /\
    1 <= Distancia_km (fastest_run bm) /\
    1 <= Distancia_km (most_elevation_run bm).
Proof.
  destruct (process_activities Sample.strftime Sample.to_datetime Sample.feed)
    as [df|e] eqn:Edf; [|discriminate Edf].
  destruct (best_marks df) as [[bm|]|e] eqn:Ebm;
    [|vm_compute in Edf; injection Edf as <-; discriminate Ebm
     |vm_compute in Edf; injection Edf as <-; discriminate Ebm].
  exists df, bm. split; [reflexivity|]. split; [exact Ebm|].
  destruct (C10_best_marks_at_least_1km df) as [H _].
  repeat split; eapply H; eauto.
Defined.

Lemma C5_aggregates_witness :
  exists df_runs bm,
    process_activities Sample.strftime Sample.to_datetime Sample.feed
    = Ok df_runs /\
    best_marks df_runs = Ok (Some bm) /\
    best_among (significant_rows df_runs) bm.
Proof.
  destruct (C5_aggregates Sample.strftime Sample.to_datetime Sample.feed)
    as (df & Hdf & _ & _ & _ & _ & _ & Hbest & _).
  assert (E : exists bm, best_marks df = Ok (Some bm)).
  { clear Hbest. vm_compute in Hdf. injection Hdf as <-.
    eexists. vm_compute. reflexivity. }
  destruct E as (bm & Ebm).
  exists df, bm. split; [exact Hdf|]. split; [exact Ebm|].
  now apply Hbest.
Defined.

(** C5, as stated, fails.  With a long run and a shorter but steeper and
    faster run of less than 1 km, the best marks are not the extrema of
    the frame: the run with most elevation and the fastest run are both
    the long run (id 1), though the short run (id 3) is a row of the frame
    with more elevation and a smaller positive pace. *)
Lemma C5_counterexample :
  exists df bm row,
    process_activities Sample.strftime Sample.to_datetime
      [Sample.long_run; Sample.short_run] = Ok df /\
    best_marks df = Ok (Some bm) /\
    In row (Pd.rows df) /\ ID row = 3%Z /\
    ID (most_elevation_run bm) = 1%Z /\
    Desnivel_m (most_elevation_run bm) < Desnivel_m row /\
    ID (fastest_run bm) = 1%Z /\
    0 < Ritmo_seg_km row /\
    Ritmo_seg_km row < Ritmo_seg_km (fastest_run bm) /\
    ~ best_among (Pd.rows df) bm.
Proof.
  destruct (process_activities Sample.strftime Sample.to_datetime
              [Sample.long_run; Sample.short_run]) as [df|e] eqn:Edf;
    [|discriminate Edf].
  vm_compute in Edf. injection Edf as <-.
  eexists. eexists. eexists.
  split; [reflexivity|]. split; [vm_compute; reflexivity|].
  split; [left; reflexivity|].
  repeat (split; [vm_compute; reflexivity|]).
  intros (_ & _ & _ & Hmax).
  match goal with
  | H : forall row, In row (Pd.rows (?ir :: _)) -> _ |- _ =>
      specialize (H (snd ir) (or_introl eq_refl))
  end.
  vm_compute in Hmax. apply Hmax. reflexivity.
Qed.

(* ================================================================== *)
(** ** The further properties on concrete activities *)

Lemma X1_pace_label_whole_seconds_witness :
  0 < 2994 # 10 /\
  exists m r : Z,
    ritmo_min_km (2994 # 10)
    = Ok (format_02d m ++ ":" ++ format_02d r)%string /\
    (0 <= m)%Z /\ (0 <= r < 60)%Z /\
    (60 * m + r)%Z = Qfloor (2994 # 10) /\
    inject_Z (60 * m + r) <= 2994 # 10 < inject_Z (60 * m + r) + 1.
Proof.
  assert (H : 0 < 2994 # 10) by reflexivity.
  split; [exact H|]. apply (@X1_pace_label_whole_seconds (2994 # 10) H).
Defined.

Lemma X7_info_iff_no_run_witness :
  [Sample.ride] <> [] /\
  (layout Sample.strftime Sample.to_datetime [Sample.ride] = Ok St_info <->
   forall act, In act [Sample.ride] -> type act <> "Run"%string).
Proof.
  assert (H : [Sample.ride] <> []) by discriminate.
  split; [exact H|].
  apply (@X7_info_iff_no_run Sample.strftime Sample.to_datetime
           [Sample.ride] H).
Defined.

Lemma X8_no_pace_raises_witness :
  runs_of [Sample.ride; Sample.manual_run] <> [] /\
  layout Sample.strftime Sample.to_datetime [Sample.ride; Sample.manual_run]
  = Raise (ValueError "cannot convert float NaN to integer").
Proof.
  assert (H1 : runs_of [Sample.ride; Sample.manual_run] <> [])
    by discriminate.
  split; [exact H1|].
  apply (@X8_no_pace_raises Sample.strftime Sample.to_datetime
           [Sample.ride; Sample.manual_run] H1).
  intros act [<-|[]]. reflexivity.
Defined.

Lemma X9_no_fast_run_raises_witness :
  (exists act, In act (runs_of [Sample.manual_run; Sample.short_run]) /\
               0 < spec_ritmo_seg_km act) /\
  layout Sample.strftime Sample.to_datetime
    [Sample.manual_run; Sample.short_run]
  = Raise (ValueError "attempt to get argmin of an empty sequence").
Proof.
  assert (H1 : exists act,
             In act (runs_of [Sample.manual_run; Sample.short_run]) /\
             0 < spec_ritmo_seg_km act).
  { exists Sample.short_run. split; [right; left; reflexivity|reflexivity]. }
  split; [exact H1|].
  apply (@X9_no_fast_run_raises Sample.strftime Sample.to_datetime
           [Sample.manual_run; Sample.short_run] H1).
  - exists Sample.manual_run. split; [left; reflexivity|].
    vm_compute. discriminate.
  - intros act [<-|[<-|[]]] Hge.
    + reflexivity.
    + exfalso. vm_compute in Hge. apply Hge. reflexivity.
Defined.

Lemma X10_analysis_shown_witness :
  (exists act, In act (runs_of Sample.feed) /\ 0 < spec_ritmo_seg_km act) /\
  exists page,
    layout Sample.strftime Sample.to_datetime Sample.feed
    = Ok (St_analysis page) /\
    carreras page = List.length (runs_of Sample.feed) /\
    (Mejores_Marcas page = None <->
     forall act, In act (runs_of Sample.feed) -> spec_distancia_km act < 1).
Proof.
  assert (H : exists act, In act (runs_of Sample.feed) /\
                          1 <= spec_distancia_km act /\
                          0 < spec_ritmo_seg_km act).
  { exists Sample.long_run. split; [left; reflexivity|].
    split; [vm_compute; discriminate|reflexivity]. }
  assert (H1 : exists act, In act (runs_of Sample.feed) /\
                           0 < spec_ritmo_seg_km act).
  { destruct H as (a & Ha & _ & Hp). now exists a. }
  split; [exact H1|].
  apply (@X10_analysis_shown Sample.strftime Sample.to_datetime
           Sample.feed H1 (fun _ => H)).
Defined.


Lemma X12_longest_run_overall_witness :
  exists df,
    process_activities Sample.strftime Sample.to_datetime Sample.feed = Ok df /\
    forall bm, best_marks df = Ok (Some bm) ->
      In (longest_run bm) (Pd.rows df) /\
      forall row, In row (Pd.rows df) ->
                  Distancia_km row <= Distancia_km (longest_run bm).
Proof.
  exact (X12_longest_run_overall Sample.strftime Sample.to_datetime
           Sample.feed).
Defined.

Lemma X14_charts_oldest_first_witness :
  exists page,
    layout Sample.strftime Sample.to_datetime Sample.feed
    = Ok (St_analysis page) /\
    StronglySorted (fun a b => (fst a <= fst b)%Z) (chart_data page) /\
    StronglySorted (fun a b => (fst a <= fst b)%Z) (pace_data page).
Proof.
  destruct (layout Sample.strftime Sample.to_datetime Sample.feed)
    as [[| |page]|e] eqn:E;
    try (vm_compute in E; discriminate E).
  exists page. split; [reflexivity|].
  destruct (@X14_charts_oldest_first Sample.strftime Sample.to_datetime
              Sample.feed page E) as (df & _ & H1 & _ & H2 & _).
  split; assumption.
Defined.


Lemma X17_label_shape_witness :
  0 < 2994 # 10 /\ 2994 # 10 < 6000 /\
  exists m1 m2 s1 s2 : ascii,
    ritmo_min_km (2994 # 10)
    = Ok (String m1 (String m2 (String ":" (String s1 (String s2 EmptyString)))))
    /\ is_digit m1 = true /\ is_digit m2 = true
    /\ is_digit s1 = true /\ is_digit s2 = true.
Proof.
  assert (H1 : 0 < 2994 # 10) by reflexivity.
  assert (H2 : 2994 # 10 < 6000) by reflexivity.
  split; [exact H1|]. split; [exact H2|].
  apply (@X17_label_shape (2994 # 10) H1 H2).
Defined.

Lemma X18_page_metrics_witness :
  exists page avg_pace_min avg_pace_sec,
    layout Sample.strftime Sample.to_datetime Sample.feed
    = Ok (St_analysis page) /\
    Ritmo_Promedio page
    = (format_d avg_pace_min ++ ":" ++ format_02d avg_pace_sec
       ++ " min/km")%string /\
    (0 <= avg_pace_sec < 60)%Z.
Proof.
  destruct (layout Sample.strftime Sample.to_datetime Sample.feed)
    as [[| |page]|e] eqn:E;
    try (vm_compute in E; discriminate E).
  destruct (@X18_page_metrics Sample.strftime Sample.to_datetime
              Sample.feed page E)
    as (df & avg & h & m & pm & ps & _ & _ & _ & _ & _ & _ & _ & _
        & Hp & _ & Hs).
  exists page, pm, ps. split; [reflexivity|]. split; assumption.
Defined.

